(** * photo_measure.py: the draggable-line ruler

    A shallow embedding of [src/photo_measure.py]: the [DraggableLine]
    widget (three handles on a line: two endpoints and their midpoint,
    grabbed and dragged with the mouse) and the script around it, which
    rescales the length of a test line by a reference line of known length
    and writes the result into a text box.

    Numbers.  The program computes with binary64 floats, and its code is
    embedded twice.

    The first embedding takes every finite float for the real number it
    denotes, with exact arithmetic.  It carries the properties that rest on
    comparisons and on what is stored where: which handle a press grabs,
    which events a line ignores, what a drag of an endpoint stores, when the
    script recomputes and what it raises.  What it keeps of the runtime
    representation is whether a number is a plain Python number or a NumPy
    scalar, because the two divide by zero differently.

    The second, [Binary64], has the handlers that compute and the script's
    recomputation on binary64 floats: every sum, difference, product and
    quotient rounded as IEEE 754 rounds it, [float()] returning the nearest
    float, [.2f] writing the digits of the float's exact value, and the
    [pow] of the C library as a parameter.  It carries the properties about
    the values themselves: the readout, the midpoint, the drag of the
    midpoint. *)

From Stdlib Require Import Reals Lra Bool List String Ascii ZArith Lia.
From Stdlib Require Import DecimalString.
From Stdlib Require PrimFloat SpecFloat FloatOps.
Import ListNotations.
Open Scope R_scope.

(** ** Numbers *)

(** A finite number with its runtime kind: [numpy = false] for a Python
    [int] or [float], [numpy = true] for a [numpy.float64] scalar. *)
Record number := Num { val : R; numpy : bool }.

Definition python (r : R) : number := Num r false.
Definition float64 (r : R) : number := Num r true.

(** [a + b], [a - b]: a NumPy operand makes the result a NumPy scalar. *)
Definition add (a b : number) : number :=
  Num (val a + val b) (numpy a || numpy b).
Definition sub (a b : number) : number :=
  Num (val a - val b) (numpy a || numpy b).

(** [a / 2], [a ** 2] and [a ** (1 / 2)] with the literal second operand. *)
Definition halve (a : number) : number := Num (val a / 2) (numpy a).
Definition square (a : number) : number := Num (val a ^ 2) (numpy a).
Definition root (a : number) : number := Num (sqrt (val a)) (numpy a).

Definition Rltb (a b : R) : bool := if Rlt_dec a b then true else false.
Definition Reqb (a b : R) : bool := if Req_dec_T a b then true else false.

(** ** Sequences of three handles *)

(** The handle data [x] and [y] always hold three entries, read and written
    at the indices 0, 1 and 2. *)
Inductive index := I0 | I1 | I2.

Definition index_eqb (i j : index) : bool :=
  match i, j with
  | I0, I0 | I1, I1 | I2, I2 => true
  | _, _ => false
  end.

Record triple (A : Type) := Triple { at0 : A; at1 : A; at2 : A }.
Arguments Triple {A} _ _ _.
Arguments at0 {A} _.
Arguments at1 {A} _.
Arguments at2 {A} _.

Definition get {A} (v : triple A) (i : index) : A :=
  match i with I0 => at0 v | I1 => at1 v | I2 => at2 v end.

Definition set {A} (v : triple A) (i : index) (a : A) : triple A :=
  match i with
  | I0 => Triple a (at1 v) (at2 v)
  | I1 => Triple (at0 v) a (at2 v)
  | I2 => Triple (at0 v) (at1 v) a
  end.

Definition map3 {A B} (f : A -> B) (v : triple A) : triple B :=
  Triple (f (at0 v)) (f (at1 v)) (f (at2 v)).

(** [np.column_stack([x, y])]: the rows [(x[i], y[i])], as plain values. *)
Definition column_stack (x y : triple number) : triple (R * R) :=
  Triple (val (at0 x), val (at0 y))
         (val (at1 x), val (at1 y))
         (val (at2 x), val (at2 y)).

(** [np.hypot]. *)
Definition hypot (a b : R) : R := sqrt (a ^ 2 + b ^ 2).

(** [np.argmin] scans from the left and moves on only to a strictly smaller
    entry, so it returns the first index of the minimum. *)
Definition argmin (d : triple R) : index :=
  let best := I0 in
  let best := if Rltb (get d I1) (get d best) then I1 else best in
  let best := if Rltb (get d I2) (get d best) then I2 else best in
  best.

(** ** The toolkit: axes, canvas, mouse events *)

(** The axes of the script's figure: the image axes [ax] and the axes of the
    two text boxes. *)
Inductive Axes := ax | axbox1 | axbox2.

Definition Axes_eqb (a b : Axes) : bool :=
  match a, b with
  | ax, ax | axbox1, axbox1 | axbox2, axbox2 => true
  | _, _ => false
  end.

(** What a handler reads from the canvas when an event arrives: whether
    [canvas.widgetlock.available(self)] holds (the widget never takes the
    lock itself, so this is the same for every line), and the current
    data-to-pixel transform of each axes, which panning and zooming change. *)
Record Canvas := {
  widgetlock_available : bool;
  transData : Axes -> R * R -> R * R
}.

(** A matplotlib [MouseEvent]: the axes under the pointer if any, the pixel
    position [x], [y] and the data position [xdata], [ydata].  The data
    position is read only when [inaxes] is the widget's axes; matplotlib
    computes it with a NumPy transform, so it is a NumPy scalar. *)
Module MouseEvent.
Record t := mk {
  inaxes : option Axes;
  x : R;
  y : R;
  xdata : R;
  ydata : R
}.
End MouseEvent.

(** [self.ax != event.inaxes] *)
Definition not_in (a : Axes) (event : MouseEvent.t) : bool :=
  match MouseEvent.inaxes event with
  | Some b => negb (Axes_eqb a b)
  | None => true
  end.

(** [Line2D]: the artist that stores the handle coordinates.  [get_data]
    hands out the stored sequences and [set_data] stores copies; the widget
    reads, updates and writes back within one handler, so no alias is ever
    observed and the data is a value here. *)
Record Line2D := { xorig : triple number; yorig : triple number }.

Definition get_data (l : Line2D) : triple number * triple number :=
  (xorig l, yorig l).

(** What a handler does to the outside: the "line-changed" signal with its
    two arguments [(x[0], x[2])] and [(y[0], y[2])], and [draw_idle]. *)
Inductive effect :=
| LineChanged (x : number * number) (y : number * number)
| DrawIdle.

(** ** class DraggableLine *)

Module DraggableLine.

Record t := mk {
  ax : Axes;
  _handles : Line2D;
  _handle_idx : option index;
  _grab_range : R;
  drawon : bool
}.

Definition with_handle_idx (self : t) (idx : option index) : t :=
  mk (ax self) (_handles self) idx (_grab_range self) (drawon self).

Definition with_drawon (self : t) (b : bool) : t :=
  mk (ax self) (_handles self) (_handle_idx self) (_grab_range self) b.

(** [self._handles.set_data(x, y)] *)
Definition set_data (self : t) (x y : triple number) : t :=
  mk (ax self) {| xorig := x; yorig := y |} (_handle_idx self)
     (_grab_range self) (drawon self).

Definition __init__ (ax : Axes) (x y : number * number) (grab_range : R) : t :=
  let center_x := halve (add (fst x) (snd x)) in
  let center_y := halve (add (fst y) (snd y)) in
  mk ax
     {| xorig := Triple (fst x) center_x (snd x);
        yorig := Triple (fst y) center_y (snd y) |}
     None grab_range true.

(** The property [grab_range].  Its setter raises [TypeError] on a value
    that is not a [Real]; the type of [val] leaves no such value here. *)
Definition grab_range (self : t) : R := _grab_range self.

Definition set_grab_range (self : t) (val : R) : t :=
  mk (ax self) (_handles self) (_handle_idx self) val (drawon self).

(** The pixel distances of the three handles to the pointer: [dist] in
    [_on_press]. *)
Definition dist (self : t) (canvas : Canvas) (event : MouseEvent.t) : triple R :=
  let '(x, y) := get_data (_handles self) in
  let pts := map3 (transData canvas (ax self)) (column_stack x y) in
  let diff := map3 (fun p => (fst p - MouseEvent.x event,
                              snd p - MouseEvent.y event)) pts in
  map3 (fun d => hypot (fst d) (snd d)) diff.

(** Both guards return early and leave [_handle_idx] as it is. *)
Definition _on_press (self : t) (canvas : Canvas) (event : MouseEvent.t) : t :=
  if not_in (ax self) event then self
  else if negb (widgetlock_available canvas) then self
  else
    let dist := dist self canvas event in
    let idx := argmin dist in
    if Rltb (get dist idx) (_grab_range self)
    then with_handle_idx self (Some idx)
    else with_handle_idx self None.

(** In the branch of the midpoint, [x += event.xdata - x[1]] has a NumPy
    scalar on the right, so NumPy adds it to every entry and [x] is an array
    from then on, also when it was the list built by [__init__]. *)
Definition _on_move (self : t) (event : MouseEvent.t) : t * list effect :=
  if not_in (ax self) event then (self, [])
  else
    match _handle_idx self with
    | None => (self, [])
    | Some idx =>
        let '(x, y) := get_data (_handles self) in
        let xdata := float64 (MouseEvent.xdata event) in
        let ydata := float64 (MouseEvent.ydata event) in
        let '(x, y) :=
          if index_eqb idx I1 then
            (map3 (fun a => add a (sub xdata (at1 x))) x,
             map3 (fun a => add a (sub ydata (at1 y))) y)
          else
            let x := set x idx xdata in
            let y := set y idx ydata in
            let x := set x I1 (halve (add (at0 x) (at2 x))) in
            let y := set y I1 (halve (add (at0 y) (at2 y))) in
            (x, y) in
        let self := set_data self x y in
        (self,
         LineChanged (at0 x, at2 x) (at0 y, at2 y)
           :: if drawon self then [DrawIdle] else [])
    end.

(** No guard here: the event is not looked at. *)
Definition _on_release (self : t) (event : MouseEvent.t) : t :=
  with_handle_idx self None.

Definition get_length (self : t) : number :=
  let '(x, y) := get_data (_handles self) in
  root (add (square (sub (at2 x) (at0 x))) (square (sub (at2 y) (at0 y)))).

Definition get_endpoints (self : t)
  : (number * number) * (number * number) :=
  let '(x, y) := get_data (_handles self) in
  ((at0 x, at2 x), (at0 y, at2 y)).

End DraggableLine.

(** ** Builtins used by the script *)

(** Here [float], [.2f], [*] and [/] work on exact values; [Binary64] below
    has them as the program computes them. *)

Inductive exn := ValueError | ZeroDivisionError.

Inductive result (A : Type) :=
| Return (a : A)
| Raise (e : exn).
Arguments Return {A} _.
Arguments Raise {A} _.

(** A Python float as [float()] can return it: finite, an infinity or nan. *)
Inductive pyfloat :=
| Finite (r : R)
| Inf (negative : bool)
| NaN.

(** *** float(str) *)

(** A text is a [string] whose characters are the code points of the Python
    [str], all below 256.  [float] strips the blanks of C ([" "] and the
    controls 9 to 13) and those it first turns into [" "], U+0085 and U+00A0;
    the separators 28 to 31 are whitespace for [str.isspace] but not here. *)
Definition is_space (c : ascii) : bool :=
  let n := nat_of_ascii c in
  ((9 <=? n) && (n <=? 13) || (n =? 32) || (n =? 133) || (n =? 160))%nat.

Definition digit_of (c : ascii) : option nat :=
  let n := nat_of_ascii c in
  if ((48 <=? n) && (n <=? 57))%nat then Some (n - 48)%nat else None.

Definition lower (c : ascii) : ascii :=
  let n := nat_of_ascii c in
  if ((65 <=? n) && (n <=? 90))%nat then ascii_of_nat (n + 32) else c.

Fixpoint lstrip (s : list ascii) : list ascii :=
  match s with
  | c :: s' => if is_space c then lstrip s' else s
  | [] => []
  end.

Definition strip (s : list ascii) : list ascii :=
  rev (lstrip (rev (lstrip s))).

(** The digits after the first one of [digit (["_"] digit)*], and the rest. *)
Fixpoint digits_tail (s : list ascii) : list nat * list ascii :=
  match s with
  | c :: s' =>
      match digit_of c with
      | Some d => let '(ds, r) := digits_tail s' in (d :: ds, r)
      | None =>
          if Ascii.eqb c "_" then
            match s' with
            | c' :: s'' =>
                match digit_of c' with
                | Some d => let '(ds, r) := digits_tail s'' in (d :: ds, r)
                | None => ([], s)
                end
            | [] => ([], s)
            end
          else ([], s)
      end
  | [] => ([], [])
  end.

Definition digitpart (s : list ascii) : option (list nat * list ascii) :=
  match s with
  | c :: s' =>
      match digit_of c with
      | Some d => let '(ds, r) := digits_tail s' in Some (d :: ds, r)
      | None => None
      end
  | [] => None
  end.

Definition Z_of_digits (ds : list nat) : Z :=
  fold_left (fun acc d => (10 * acc + Z.of_nat d)%Z) ds 0%Z.

Definition sign (s : list ascii) : bool * list ascii :=
  match s with
  | c :: s' =>
      if Ascii.eqb c "-" then (true, s')
      else if Ascii.eqb c "+" then (false, s')
      else (false, s)
  | [] => (false, [])
  end.

(** [number [exponent]]: digits with an optional point, at least one digit,
    then an optional exponent; nothing may follow.  The result [(m, e)]
    stands for [m * 10 ^ e]. *)
Definition decimal (s : list ascii) : option (Z * Z) :=
  let '(ip, s1) :=
    match digitpart s with Some (ds, r) => (ds, r) | None => ([], s) end in
  let '(fp, s2) :=
    match s1 with
    | c :: r =>
        if Ascii.eqb c "." then
          match digitpart r with Some (ds, r') => (ds, r') | None => ([], r) end
        else ([], s1)
    | [] => ([], s1)
    end in
  let mantissa := Z_of_digits (ip ++ fp) in
  let scale := (- Z.of_nat (List.length fp))%Z in
  if (List.length ip + List.length fp =? 0)%nat then None
  else
    match s2 with
    | [] => Some (mantissa, scale)
    | c :: r =>
        if Ascii.eqb (lower c) "e" then
          let '(neg, r1) := sign r in
          match digitpart r1 with
          | Some (ds, []) =>
              let e := Z_of_digits ds in
              Some (mantissa, (scale + if neg then - e else e)%Z)
          | _ => None
          end
        else None
    end.

Definition floatnumber (s : list ascii) : option R :=
  match decimal s with
  | Some (m, e) => Some (IZR m * powerRZ 10 e)
  | None => None
  end.

Definition float (text : string) : result pyfloat :=
  let '(neg, body) := sign (strip (list_ascii_of_string text)) in
  let word := string_of_list_ascii (map lower body) in
  if (String.eqb word "inf" || String.eqb word "infinity")%bool
  then Return (Inf neg)
  else if String.eqb word "nan" then Return NaN
  else
    match floatnumber body with
    | Some r => Return (Finite (if neg then - r else r))
    | None => Raise ValueError
    end.

(** *** The format spec [.2f] *)

(** Rounding to the nearest integer, ties to the even one. *)
Definition round_half_even (r : R) : Z :=
  let f := Int_part r in
  let d := r - IZR f in
  if Rltb d (1 / 2) then f
  else if Rltb (1 / 2) d then (f + 1)%Z
  else if Z.even f then f else (f + 1)%Z.

Definition digit_string (d : Z) : string :=
  String (ascii_of_nat (48 + Z.to_nat d)) EmptyString.

Definition format_2f (v : pyfloat) : string :=
  match v with
  | NaN => "nan"
  | Inf false => "inf"
  | Inf true => "-inf"
  | Finite r =>
      let n := round_half_even (Rabs r * 100) in
      ((if Rltb r 0 then "-" else "")
       ++ NilZero.string_of_uint (N.to_uint (Z.to_N (n / 100)))
       ++ "."
       ++ digit_string ((n mod 100) / 10) ++ digit_string (n mod 10))%string
  end.

(** *** Multiplication and true division of the readout *)

(** [a * b] for a Python float [a] and a finite number [b]. *)
Definition mul (a : pyfloat) (b : R) : pyfloat :=
  match a with
  | Finite r => Finite (r * b)
  | Inf s => if Reqb b 0 then NaN else Inf (xorb s (Rltb b 0))
  | NaN => NaN
  end.

(** [n / d].  Between Python floats a zero divisor raises
    [ZeroDivisionError].  As soon as one operand is a NumPy scalar the
    division is NumPy's, which warns and returns an infinity or nan. *)
Definition truediv (n : pyfloat) (n_numpy : bool) (d : number) : result pyfloat :=
  if Reqb (val d) 0 then
    if (n_numpy || numpy d)%bool then
      Return match n with
             | Finite r => if Reqb r 0 then NaN else Inf (Rltb r 0)
             | Inf s => Inf s
             | NaN => NaN
             end
    else Raise ZeroDivisionError
  else
    Return match n with
           | Finite r => Finite (r / val d)
           | Inf s => Inf (xorb s (Rltb (val d) 0))
           | NaN => NaN
           end.

(** ** The script *)

(** The state of the running script: the two lines and the text of the two
    text boxes. *)
Record Program := {
  ref_line : DraggableLine.t;
  ref_text : string;
  test_line : DraggableLine.t;
  measured_box : string
}.

Definition with_ref_line (p : Program) (l : DraggableLine.t) : Program :=
  {| ref_line := l; ref_text := ref_text p;
     test_line := test_line p; measured_box := measured_box p |}.

Definition with_test_line (p : Program) (l : DraggableLine.t) : Program :=
  {| ref_line := ref_line p; ref_text := ref_text p;
     test_line := l; measured_box := measured_box p |}.

Definition with_ref_text (p : Program) (s : string) : Program :=
  {| ref_line := ref_line p; ref_text := s;
     test_line := test_line p; measured_box := measured_box p |}.

(** [measured_box.set_val(s)] *)
Definition set_val (p : Program) (s : string) : Program :=
  {| ref_line := ref_line p; ref_text := ref_text p;
     test_line := test_line p; measured_box := s |}.

Definition refx : number * number :=
  (python 390.21691176470574, python 388.0611631016043).
Definition refy : number * number :=
  (python 592.6617647058823, python 927.7553475935829).
Definition reference_length : string := "26".

(** The state when [plt.show()] starts the event loop.  What the script
    prints when the loop ends is not part of the model. *)
Definition initial : Program :=
  {| ref_line := DraggableLine.__init__ ax refx refy 10;
     ref_text := reference_length;
     test_line :=
       DraggableLine.with_drawon
         (DraggableLine.__init__ ax (python 5, python 500)
                                    (python 5, python 500) 10)
         false;
     measured_box := "???" |}.

(** [float(ref_text.text)] is evaluated first, the division last; nothing
    is written when one of them raises.  The trailing
    [fig.canvas.draw_idle()] only schedules a redraw. *)
Definition update_test_readout (test_length : option number) (p : Program)
  : result Program :=
  let test_length :=
    match test_length with
    | None => DraggableLine.get_length (test_line p)
    | Some l => l
    end in
  match float (ref_text p) with
  | Raise e => Raise e
  | Return f =>
      match truediv (mul f (val test_length)) (numpy test_length)
                    (DraggableLine.get_length (ref_line p)) with
      | Raise e => Raise e
      | Return length => Return (set_val p (format_2f length))
      end
  end.

Definition test_moved (x y : number * number) (p : Program) : result Program :=
  update_test_readout
    (Some (root (add (square (sub (snd x) (fst x)))
                     (square (sub (snd y) (fst y)))))) p.

(** *** Wiring *)

Inductive line := RefLine | TestLine.

(** The functions connected with [on_line_changed]: the script connects
    [test_moved] to [test_line] and nothing to [ref_line]. *)
Definition line_changed_observers (l : line)
  : list (number * number -> number * number -> Program -> result Program) :=
  match l with
  | RefLine => []
  | TestLine => [test_moved]
  end.

(** [self._observers.process("line-changed", x, y)] for each signal a handler
    sent.  An exception leaves the state as it was when the observer was
    called; it is reported and the remaining observers still run. *)
Fixpoint call_observers
  (obs : list (number * number -> number * number -> Program -> result Program))
  (x y : number * number) (p : Program) : Program * option exn :=
  match obs with
  | [] => (p, None)
  | f :: obs' =>
      match f x y p with
      | Return p' => call_observers obs' x y p'
      | Raise e => (fst (call_observers obs' x y p), Some e)
      end
  end.

Fixpoint process (l : line) (effects : list effect) (p : Program)
  : Program * option exn :=
  match effects with
  | [] => (p, None)
  | LineChanged x y :: effects' =>
      let '(p', e) := call_observers (line_changed_observers l) x y p in
      let '(p'', e') := process l effects' p' in
      (p'', match e with Some _ => e | None => e' end)
  | DrawIdle :: effects' => process l effects' p
  end.

(** What the event loop delivers. *)
Inductive gui_event :=
| button_press_event (canvas : Canvas) (event : MouseEvent.t)
| motion_notify_event (event : MouseEvent.t)
| button_release_event (event : MouseEvent.t)
| ref_text_change (text : string)
| measured_box_change (text : string).

(** One event: the canvas calls the handlers of [ref_line], then those of
    [test_line] (the order in which the widgets connected); an edit of the
    reference box stores the text and calls [update_test_readout()]; the
    readout box can be typed in too, and nothing observes it. *)
Definition handle (p : Program) (e : gui_event) : Program * option exn :=
  match e with
  | button_press_event canvas event =>
      let p := with_ref_line p
                 (DraggableLine._on_press (ref_line p) canvas event) in
      (with_test_line p
         (DraggableLine._on_press (test_line p) canvas event), None)
  | motion_notify_event event =>
      let '(r, effects_r) := DraggableLine._on_move (ref_line p) event in
      let '(p, e_r) := process RefLine effects_r (with_ref_line p r) in
      let '(t, effects_t) := DraggableLine._on_move (test_line p) event in
      let '(p, e_t) := process TestLine effects_t (with_test_line p t) in
      (p, match e_r with Some _ => e_r | None => e_t end)
  | button_release_event event =>
      let p := with_ref_line p
                 (DraggableLine._on_release (ref_line p) event) in
      (with_test_line p
         (DraggableLine._on_release (test_line p) event), None)
  | ref_text_change text =>
      let p := with_ref_text p text in
      match update_test_readout None p with
      | Return p' => (p', None)
      | Raise e => (p, Some e)
      end
  | measured_box_change text => (set_val p text, None)
  end.

(** A line on its own: the three handlers as one step function. *)
Inductive line_event :=
| Press (canvas : Canvas) (event : MouseEvent.t)
| Move (event : MouseEvent.t)
| Release (event : MouseEvent.t).

Definition step (self : DraggableLine.t) (e : line_event)
  : DraggableLine.t * list effect :=
  match e with
  | Press canvas event => (DraggableLine._on_press self canvas event, [])
  | Move event => DraggableLine._on_move self event
  | Release event => (DraggableLine._on_release self event, [])
  end.

Fixpoint run (self : DraggableLine.t) (es : list line_event)
  : DraggableLine.t * list effect :=
  match es with
  | [] => (self, [])
  | e :: es' =>
      let '(self', out) := step self e in
      let '(self'', out') := run self' es' in
      (self'', out ++ out')
  end.

(** * The vocabulary of the properties *)

(** ** Geometry of a line *)

(** The Euclidean distance between the two endpoints that [get_endpoints]
    returns as [((x0, x1), (y0, y1))]. *)
Definition euclidean (e : (number * number) * (number * number)) : R :=
  let '((x0, x1), (y0, y1)) := e in
  sqrt (Rsqr (val x1 - val x0) + Rsqr (val y1 - val y0)).

Definition length (self : DraggableLine.t) : R :=
  euclidean (DraggableLine.get_endpoints self).

(** The endpoints and the midpoint of a line, as points of the plane. *)
Definition handle_point (self : DraggableLine.t) (i : index) : R * R :=
  (val (get (xorig (DraggableLine._handles self)) i),
   val (get (yorig (DraggableLine._handles self)) i)).

Definition mean (p q : R * R) : R * R :=
  ((fst p + fst q) / 2, (snd p + snd q) / 2).

Definition midpoint_is_mean (self : DraggableLine.t) : Prop :=
  handle_point self I1 = mean (handle_point self I0) (handle_point self I2).

(** The endpoint opposite to an endpoint. *)
Definition other (i : index) : index :=
  match i with I0 => I2 | I1 => I1 | I2 => I0 end.

(** ** Presses *)

Definition index_nat (i : index) : nat :=
  match i with I0 => 0 | I1 => 1 | I2 => 2 end.

(** The Euclidean distance, in pixels, between the pointer and handle [i]
    as the axes' transform places it on the screen. *)
Definition pixel_distance (self : DraggableLine.t) (canvas : Canvas)
  (event : MouseEvent.t) (i : index) : R :=
  let p := transData canvas (DraggableLine.ax self) (handle_point self i) in
  sqrt (Rsqr (fst p - MouseEvent.x event) + Rsqr (snd p - MouseEvent.y event)).

(** The handle that a press picks: [argmin] over the three distances. *)
Definition nearest (self : DraggableLine.t) (canvas : Canvas)
  (event : MouseEvent.t) : index :=
  argmin (DraggableLine.dist self canvas event).

(** A press that passes both guards of [_on_press]. *)
Definition processed (self : DraggableLine.t) (canvas : Canvas)
  (event : MouseEvent.t) : Prop :=
  MouseEvent.inaxes event = Some (DraggableLine.ax self)
  /\ widgetlock_available canvas = true.

(** No event of [es], handled in turn from [self], leaves a handle grabbed. *)
Fixpoint ungrabbed (self : DraggableLine.t) (es : list line_event) : bool :=
  match es with
  | [] => true
  | e :: es' =>
      let self' := fst (step self e) in
      match DraggableLine._handle_idx self' with
      | None => ungrabbed self' es'
      | Some _ => false
      end
  end.

(** ** The script's reactions *)

(** The test length that a recomputation uses. *)
Definition used_test_length (test_length : option number) (p : Program)
  : number :=
  match test_length with
  | None => DraggableLine.get_length (test_line p)
  | Some l => l
  end.

(** The state after the widgets handled a move and before any observer ran:
    both lines moved, the readout as it was. *)
Definition moved (p : Program) (event : MouseEvent.t) : Program :=
  with_test_line
    (with_ref_line p (fst (DraggableLine._on_move (ref_line p) event)))
    (fst (DraggableLine._on_move (test_line p) event)).

(** Whether the test line sends "line-changed" on this move. *)
Definition test_line_changes (p : Program) (event : MouseEvent.t) : bool :=
  match snd (DraggableLine._on_move (test_line p) event) with
  | [] => false
  | _ :: _ => true
  end.

(** Whether the reference line sends "line-changed" on this move. *)
Definition ref_line_changes (p : Program) (event : MouseEvent.t) : bool :=
  match snd (DraggableLine._on_move (ref_line p) event) with
  | [] => false
  | _ :: _ => true
  end.

Definition report (before : Program) (r : result Program)
  : Program * option exn :=
  match r with
  | Return p' => (p', None)
  | Raise e => (before, Some e)
  end.

(** The state after the widgets handled an event and before any observer of
    "line-changed" or of the reference box ran. *)
Definition after_widgets (p : Program) (e : gui_event) : Program :=
  match e with
  | button_press_event canvas event =>
      with_test_line
        (with_ref_line p (DraggableLine._on_press (ref_line p) canvas event))
        (DraggableLine._on_press (test_line p) canvas event)
  | motion_notify_event event => moved p event
  | button_release_event event =>
      with_test_line
        (with_ref_line p (DraggableLine._on_release (ref_line p) event))
        (DraggableLine._on_release (test_line p) event)
  | ref_text_change text => with_ref_text p text
  | measured_box_change text => set_val p text
  end.

(** The events on which the script calls [update_test_readout]. *)
Definition recomputes (p : Program) (e : gui_event) : bool :=
  match e with
  | ref_text_change _ => true
  | motion_notify_event event => test_line_changes p event
  | button_press_event _ _ | button_release_event _
  | measured_box_change _ => false
  end.

(** Handling [e] ends with a call of [update_test_readout()] on the updated
    lines and text: its result is written, or its exception reported. *)
Definition recomputed (p : Program) (e : gui_event) : Prop :=
  handle p e
  = report (after_widgets p e)
           (update_test_readout None (after_widgets p e)).

(** The three texts that stand for a non-finite quotient. *)
Definition non_finite_text (s : string) : Prop :=
  s = "inf"%string \/ s = "-inf"%string \/ s = "nan"%string.

(** Both operands of the division are plain Python floats. *)
Definition python_operands (test_length : option number) (p : Program)
  : bool :=
  negb (numpy (used_test_length test_length p)
        || numpy (DraggableLine.get_length (ref_line p))).

(** The reference line still has its initial handles, or its length is
    computed from a NumPy scalar. *)
Definition reference_untouched_or_numpy (p : Program) : Prop :=
  DraggableLine._handles (ref_line p)
    = DraggableLine._handles (ref_line initial)
  \/ numpy (DraggableLine.get_length (ref_line p)) = true.

(** The script's state after a run of events. *)
Definition play (es : list gui_event) : Program :=
  fold_left (fun p e => fst (handle p e)) es initial.

(** ** Sample lines, pointers and states *)

(** A canvas whose pixel coordinates are the data coordinates. *)
Definition plain_canvas (lock_available : bool) : Canvas :=
  {| widgetlock_available := lock_available; transData := fun _ p => p |}.

(** The line from (0, 0) to (4, 0) in the image axes, with grab range 10. *)
Definition short_line (idx : option index) : DraggableLine.t :=
  DraggableLine.with_handle_idx
    (DraggableLine.__init__ ax (python 0, python 4) (python 0, python 0) 10)
    idx.

(** A pointer at a data position of the image axes, on a canvas whose pixel
    coordinates are the data coordinates. *)
Definition pointer_at (q : R * R) : MouseEvent.t :=
  MouseEvent.mk (Some ax) (fst q) (snd q) (fst q) (snd q).

(** The scenario of the specification: a reference line from (0, 0) to
    (0, 26) of reference length 26 and a test line from (0, 0) to (0, 13). *)
Definition scenario : Program :=
  {| ref_line := DraggableLine.__init__ ax (python 0, python 0)
                                           (python 0, python 26) 10;
     ref_text := "26";
     test_line := DraggableLine.__init__ ax (python 0, python 0)
                                            (python 0, python 13) 10;
     measured_box := "???" |}.

(** The scenario with endpoint 1 of the reference line grabbed and the
    readout showing the current 13.00. *)
Definition dragging_reference : Program :=
  set_val
    (with_ref_line scenario
       (DraggableLine.with_handle_idx (ref_line scenario) (Some I2)))
    "13.00".

(** Where the handles of the reference line start. *)
Definition ref_endpoint0 : R * R := (390.21691176470574, 592.6617647058823).
Definition ref_endpoint1 : R * R := (388.0611631016043, 927.7553475935829).

(** The script after a press on endpoint 1 of the reference line. *)
Definition grabbed_reference : Program :=
  with_ref_line initial
    (DraggableLine.with_handle_idx (ref_line initial) (Some I2)).

(** ... and after dragging that endpoint onto endpoint 0. *)
Definition collapsed : Program :=
  fst (handle grabbed_reference
         (motion_notify_event (pointer_at ref_endpoint0))).

(** ** Signals, moves and screen positions *)

(** The arguments of the "line-changed" signals among the effects of a
    handler or of a run, oldest first. *)
Fixpoint signals (out : list effect)
  : list ((number * number) * (number * number)) :=
  match out with
  | [] => []
  | LineChanged x y :: out' => (x, y) :: signals out'
  | DrawIdle :: out' => signals out'
  end.

(** The arguments of the last "line-changed" signal, if one was sent. *)
Fixpoint last_signal (out : list effect)
  : option ((number * number) * (number * number)) :=
  match out with
  | [] => None
  | LineChanged x y :: out' =>
      match last_signal out' with
      | Some s => Some s
      | None => Some (x, y)
      end
  | DrawIdle :: out' => last_signal out'
  end.

(** The last of the moves whose pointer is over the axes [a]. *)
Fixpoint last_inside (a : Axes) (moves : list MouseEvent.t)
  : option MouseEvent.t :=
  match moves with
  | [] => None
  | m :: moves' =>
      match last_inside a moves' with
      | Some m' => Some m'
      | None => if not_in a m then None else Some m
      end
  end.

(** Where the axes' transform puts handle [i] on the screen. *)
Definition pixel_point (self : DraggableLine.t) (canvas : Canvas)
  (i : index) : R * R :=
  transData canvas (DraggableLine.ax self) (handle_point self i).

(** The Euclidean distance between two points of the plane. *)
Definition distance (p q : R * R) : R :=
  sqrt (Rsqr (fst q - fst p) + Rsqr (snd q - snd p)).

(** The data position of the pointer. *)
Definition pointer (event : MouseEvent.t) : R * R :=
  (MouseEvent.xdata event, MouseEvent.ydata event).

(** * The arithmetic of the program, on binary64

    The handlers and the script once more, on the numbers the program
    computes with.  A coordinate is a binary64 float, as the docstring of
    [__init__] asks for ("Array of float"), with its runtime kind.  Sums,
    differences, products and quotients are those of IEEE 754, rounded to
    nearest with ties to even. *)

Module Binary64.

Import PrimFloat.
Local Open Scope float_scope.

Abbreviation binary64 := PrimFloat.float.

(** ** Numbers *)

(** [numpy = false] for a Python [float], [numpy = true] for a
    [numpy.float64] scalar. *)
Record number := Num { val : binary64; numpy : bool }.

Definition python (f : binary64) : number := Num f false.
Definition float64 (f : binary64) : number := Num f true.

(** [a + b], [a - b]: neither raises, for either kind. *)
Definition add (a b : number) : number :=
  Num (val a + val b) (numpy a || numpy b).
Definition sub (a b : number) : number :=
  Num (val a - val b) (numpy a || numpy b).

(** [a / 2] *)
Definition halve (a : number) : number := Num (val a / 2) (numpy a).

Inductive exn := ValueError | ZeroDivisionError | OverflowError.

(** What evaluating an expression gives: a value, an exception, or a
    complex number, which is what Python's [**] returns for a negative base
    and the exponent [1 / 2]; the model follows the program no further
    then. *)
Inductive result (A : Type) :=
| Return (a : A)
| Raise (e : exn)
| Complex.
Arguments Return {A} _.
Arguments Raise {A} _.
Arguments Complex {A}.

Definition bind {A B} (r : result A) (k : A -> result B) : result B :=
  match r with
  | Return a => k a
  | Raise e => Raise e
  | Complex => Complex
  end.

Notation "x <- r ;; k" := (bind r (fun x => k))
  (at level 100, r at next level, right associativity).

(** [pow] of the C library.  IEEE 754 does not fix its results to the last
    bit and the libraries differ, also from the correctly rounded [x * x]
    and [sqrt x], so it is a parameter of everything that computes a
    length. *)
Definition libm_pow := binary64 -> binary64 -> binary64.

(** [iv ** iw] between Python floats, for the two exponents of the program:
    [2], where [integral] is [true], and [1 / 2], where it is [false].
    [float.__pow__] sorts out nan, the infinities, zero, a negative base and
    1 on its own and calls [pow] on what is left; an infinite result of
    [pow] is an [OverflowError]. *)
Definition float_pow (pow : libm_pow) (iv iw : binary64) (integral : bool)
  : result binary64 :=
  if is_nan iv then Return iv
  else if is_infinity iv then Return (abs iv)
  else if iv =? 0 then Return 0
  else if (iv <? 0) && negb integral then Complex
  else
    let iv := if iv <? 0 then - iv else iv in
    if iv =? 1 then Return 1
    else
      let ix := pow iv iw in
      if is_infinity ix then Raise OverflowError else Return ix.

(** [a ** iw]: a NumPy scalar hands both operands to [pow] and warns where
    Python raises. *)
Definition power (pow : libm_pow) (a : number) (iw : binary64)
  (integral : bool) : result number :=
  if numpy a then Return (float64 (pow (val a) iw))
  else x <- float_pow pow (val a) iw integral ;; Return (python x).

(** [a ** 2] and [a ** (1 / 2)] *)
Definition square (pow : libm_pow) (a : number) : result number :=
  power pow a 2 true.
Definition root (pow : libm_pow) (a : number) : result number :=
  power pow a 0.5 false.

(** ** The toolkit *)

Module MouseEvent.
Record t := mk {
  inaxes : option Axes;
  x : binary64;
  y : binary64;
  xdata : binary64;
  ydata : binary64
}.
End MouseEvent.

(** [self.ax != event.inaxes] *)
Definition not_in (a : Axes) (event : MouseEvent.t) : bool :=
  match MouseEvent.inaxes event with
  | Some b => negb (Axes_eqb a b)
  | None => true
  end.

Record Line2D := { xorig : triple number; yorig : triple number }.

Definition get_data (l : Line2D) : triple number * triple number :=
  (xorig l, yorig l).

Inductive effect :=
| LineChanged (x : number * number) (y : number * number)
| DrawIdle.

(** ** class DraggableLine: the handle data *)

(** The handlers that compute: [__init__], [_on_move], [_on_release],
    [get_length] and [get_endpoints].  [_on_press] only compares distances
    and sets [_handle_idx]; here a line starts from any [_handle_idx]. *)
Module DraggableLine.

Record t := mk {
  ax : Axes;
  _handles : Line2D;
  _handle_idx : option index;
  _grab_range : binary64;
  drawon : bool
}.

Definition with_handle_idx (self : t) (idx : option index) : t :=
  mk (ax self) (_handles self) idx (_grab_range self) (drawon self).

Definition with_drawon (self : t) (b : bool) : t :=
  mk (ax self) (_handles self) (_handle_idx self) (_grab_range self) b.

Definition set_data (self : t) (x y : triple number) : t :=
  mk (ax self) {| xorig := x; yorig := y |} (_handle_idx self)
     (_grab_range self) (drawon self).

Definition __init__ (ax : Axes) (x y : number * number)
  (grab_range : binary64) : t :=
  let center_x := halve (add (fst x) (snd x)) in
  let center_y := halve (add (fst y) (snd y)) in
  mk ax
     {| xorig := Triple (fst x) center_x (snd x);
        yorig := Triple (fst y) center_y (snd y) |}
     None grab_range true.

(** [event.xdata] and [event.ydata] are NumPy scalars.  In the branch of
    the midpoint the difference [event.xdata - x[1]] is computed once and
    added to each of the three entries. *)
Definition _on_move (self : t) (event : MouseEvent.t) : t * list effect :=
  if not_in (ax self) event then (self, [])
  else
    match _handle_idx self with
    | None => (self, [])
    | Some idx =>
        let '(x, y) := get_data (_handles self) in
        let xdata := float64 (MouseEvent.xdata event) in
        let ydata := float64 (MouseEvent.ydata event) in
        let '(x, y) :=
          if index_eqb idx I1 then
            (map3 (fun a => add a (sub xdata (at1 x))) x,
             map3 (fun a => add a (sub ydata (at1 y))) y)
          else
            let x := set x idx xdata in
            let y := set y idx ydata in
            let x := set x I1 (halve (add (at0 x) (at2 x))) in
            let y := set y I1 (halve (add (at0 y) (at2 y))) in
            (x, y) in
        let self := set_data self x y in
        (self,
         LineChanged (at0 x, at2 x) (at0 y, at2 y)
           :: if drawon self then [DrawIdle] else [])
    end.

Definition _on_release (self : t) (event : MouseEvent.t) : t :=
  with_handle_idx self None.

(** The squares are evaluated from left to right, then their sum, then the
    root. *)
Definition get_length (pow : libm_pow) (self : t) : result number :=
  let '(x, y) := get_data (_handles self) in
  dx2 <- square pow (sub (at2 x) (at0 x)) ;;
  dy2 <- square pow (sub (at2 y) (at0 y)) ;;
  root pow (add dx2 dy2).

Definition get_endpoints (self : t)
  : (number * number) * (number * number) :=
  let '(x, y) := get_data (_handles self) in
  ((at0 x, at2 x), (at0 y, at2 y)).

End DraggableLine.

(** ** Builtins used by the script *)

(** *** float(str) *)

Definition integer (negative : bool) (z : Z) : SpecFloat.spec_float :=
  match z with
  | Z0 => SpecFloat.S754_zero negative
  | Zpos m => SpecFloat.S754_finite negative m 0
  | Zneg _ => SpecFloat.S754_nan
  end.

(** The binary64 float nearest to [m * 10 ^ e] for [0 <= m], ties to even,
    with the sign [negative]: the quotient of two integers, rounded once.
    Too large a number gives an infinity, too small a one a zero. *)
Definition nearest_binary64 (negative : bool) (m e : Z) : binary64 :=
  FloatOps.SF2Prim
    (SpecFloat.SFdiv FloatOps.prec FloatOps.emax
       (integer negative (m * 10 ^ Z.max e 0))
       (integer false (10 ^ Z.max (- e) 0))).

(** The characters are read as by the [float] of the exact model above; the
    value is the nearest float. *)
Definition float (text : string) : result binary64 :=
  let '(neg, body) := sign (strip (list_ascii_of_string text)) in
  let word := string_of_list_ascii (map lower body) in
  if (String.eqb word "inf" || String.eqb word "infinity")%bool
  then Return (if neg then neg_infinity else infinity)
  else if String.eqb word "nan" then Return nan
  else
    match decimal body with
    | Some (m, e) => Return (nearest_binary64 neg m e)
    | None => Raise ValueError
    end.

(** *** The format spec [.2f] *)

(** The integer nearest to [num / den] for [0 < den], ties to even. *)
Definition round_half_even_div (num den : Z) : Z :=
  let q := (num / den)%Z in
  match (2 * (num mod den) ?= den)%Z with
  | Lt => q
  | Gt => (q + 1)%Z
  | Eq => if Z.even q then q else (q + 1)%Z
  end.

(** The hundredths of [m * 2 ^ e], rounded. *)
Definition hundredths (m : positive) (e : Z) : Z :=
  if (0 <=? e)%Z then (100 * Zpos m * 2 ^ e)%Z
  else round_half_even_div (100 * Zpos m) (2 ^ (- e)).

Definition digit_char (d : Z) : ascii := ascii_of_nat (48 + Z.to_nat d).

(** A sign and [n] hundredths as [-ddd.dd]. *)
Definition fixed2 (negative : bool) (n : Z) : string :=
  ((if negative then "-" else "")
   ++ NilZero.string_of_uint (N.to_uint (Z.to_N (n / 100)))
   ++ "."
   ++ String (digit_char ((n mod 100) / 10))
        (String (digit_char (n mod 10)) ""))%string.

(** The digits are those of the float's exact value, correctly rounded; a
    negative zero, and a negative number that rounds to zero, keep their
    sign. *)
Definition format_2f (v : binary64) : string :=
  match FloatOps.Prim2SF v with
  | SpecFloat.S754_nan => "nan"%string
  | SpecFloat.S754_infinity s => if s then "-inf"%string else "inf"%string
  | SpecFloat.S754_zero s => fixed2 s 0
  | SpecFloat.S754_finite s m e => fixed2 s (hundredths m e)
  end.

(** *** Multiplication and true division of the readout *)

(** [a * b] for the Python float [a] that [float()] returns: an overflow
    gives an infinity for either kind of [b]. *)
Definition mul (a : binary64) (b : number) : number :=
  Num (a * val b) (numpy b).

(** [n / d]: between Python floats a zero divisor raises; NumPy divides as
    IEEE 754 does, and warns. *)
Definition truediv (n d : number) : result number :=
  if (numpy n || numpy d)%bool then Return (float64 (val n / val d))
  else if val d =? 0 then Raise ZeroDivisionError
  else Return (python (val n / val d)).

(** ** The script *)

Record Program := {
  ref_line : DraggableLine.t;
  ref_text : string;
  test_line : DraggableLine.t;
  measured_box : string
}.

Definition with_ref_line (p : Program) (l : DraggableLine.t) : Program :=
  {| ref_line := l; ref_text := ref_text p;
     test_line := test_line p; measured_box := measured_box p |}.

Definition with_test_line (p : Program) (l : DraggableLine.t) : Program :=
  {| ref_line := ref_line p; ref_text := ref_text p;
     test_line := l; measured_box := measured_box p |}.

Definition with_ref_text (p : Program) (s : string) : Program :=
  {| ref_line := ref_line p; ref_text := s;
     test_line := test_line p; measured_box := measured_box p |}.

Definition set_val (p : Program) (s : string) : Program :=
  {| ref_line := ref_line p; ref_text := ref_text p;
     test_line := test_line p; measured_box := s |}.

(** In the order of evaluation: the test length when none is passed, then
    [float(ref_text.text)], the product, [ref_line.get_length()] and the
    quotient. *)
Definition update_test_readout (pow : libm_pow) (test_length : option number)
  (p : Program) : result Program :=
  test_length <-
    match test_length with
    | None => DraggableLine.get_length pow (test_line p)
    | Some l => Return l
    end ;;
  f <- float (ref_text p) ;;
  let product := mul f test_length in
  ref_length <- DraggableLine.get_length pow (ref_line p) ;;
  length <- truediv product ref_length ;;
  Return (set_val p (format_2f (val length))).

Definition test_moved (pow : libm_pow) (x y : number * number) (p : Program)
  : result Program :=
  dx2 <- square pow (sub (snd x) (fst x)) ;;
  dy2 <- square pow (sub (snd y) (fst y)) ;;
  test_length <- root pow (add dx2 dy2) ;;
  update_test_readout pow (Some test_length) p.

(** The observer of the test line, called for each "line-changed". *)
Fixpoint process (pow : libm_pow) (effects : list effect) (p : Program)
  : result Program :=
  match effects with
  | [] => Return p
  | LineChanged x y :: effects' =>
      p' <- test_moved pow x y p ;; process pow effects' p'
  | DrawIdle :: effects' => process pow effects' p
  end.

(** A move of the mouse: [_on_move] of the reference line, which nothing
    observes, then [_on_move] of the test line and its observer. *)
Definition motion_notify_event (pow : libm_pow) (event : MouseEvent.t)
  (p : Program) : result Program :=
  let '(r, _) := DraggableLine._on_move (ref_line p) event in
  let p := with_ref_line p r in
  let '(t, effects) := DraggableLine._on_move (test_line p) event in
  process pow effects (with_test_line p t).

(** An edit of the reference box. *)
Definition ref_text_change (pow : libm_pow) (text : string) (p : Program)
  : result Program :=
  update_test_readout pow None (with_ref_text p text).

(** ** The vocabulary of the properties *)

(** The coordinates of handle [i]. *)
Definition handle_x (self : DraggableLine.t) (i : index) : number :=
  get (xorig (DraggableLine._handles self)) i.
Definition handle_y (self : DraggableLine.t) (i : index) : number :=
  get (yorig (DraggableLine._handles self)) i.

(** The mean as the program computes it, [(a + b) / 2]. *)
Definition mean (a b : number) : number := halve (add a b).

Definition midpoint_is_mean (self : DraggableLine.t) : Prop :=
  handle_x self I1 = mean (handle_x self I0) (handle_x self I2)
  /\ handle_y self I1 = mean (handle_y self I0) (handle_y self I2).

(** The Euclidean distance between the endpoints that [get_endpoints]
    returns, as the program computes it. *)
Definition euclidean (pow : libm_pow)
  (e : (number * number) * (number * number)) : result number :=
  let '((x0, x1), (y0, y1)) := e in
  dx2 <- square pow (sub x1 x0) ;;
  dy2 <- square pow (sub y1 y0) ;;
  root pow (add dx2 dy2).

(** The state after the widgets handled a move and before the observer of
    the test line ran. *)
Definition moved (p : Program) (event : MouseEvent.t) : Program :=
  with_test_line
    (with_ref_line p (fst (DraggableLine._on_move (ref_line p) event)))
    (fst (DraggableLine._on_move (test_line p) event)).

(** Whether the test line sends "line-changed" on this move. *)
Definition test_line_changes (p : Program) (event : MouseEvent.t) : bool :=
  match snd (DraggableLine._on_move (test_line p) event) with
  | [] => false
  | _ :: _ => true
  end.

(** The quotient of the readout is defined: by NumPy for any divisor, by
    Python for a divisor that is not zero. *)
Definition divides (n d : number) : bool :=
  numpy n || numpy d || negb (val d =? 0).

(** [n] is the number of hundredths nearest to [m * 2 ^ e], the even one of
    two that are equally near. *)
Definition nearest_hundredths (m : positive) (e n : Z) : Prop :=
  if (0 <=? e)%Z then n = (100 * Zpos m * 2 ^ e)%Z
  else (2 * Z.abs (n * 2 ^ (- e) - 100 * Zpos m) <= 2 ^ (- e))%Z
       /\ ((2 * Z.abs (n * 2 ^ (- e) - 100 * Zpos m) = 2 ^ (- e))%Z
           -> Z.even n = true).

(** A recomputation from the state [q] went through and left [p']: the text
    of the reference box is the float [L], both lengths were computed, the
    quotient is defined, and the readout shows
    [L * test_line.get_length() / ref_line.get_length()], computed from left
    to right, with the format [.2f]; nothing else changed. *)
Definition recomputed_from (pow : libm_pow) (q p' : Program) : Prop :=
  exists (L : binary64) (lt lr : number),
    float (ref_text q) = Return L
    /\ DraggableLine.get_length pow (test_line q) = Return lt
    /\ DraggableLine.get_length pow (ref_line q) = Return lr
    /\ divides (mul L lt) lr = true
    /\ p' = set_val q (format_2f (L * val lt / val lr)).

(** ** Sample lines and states *)

(** What a correctly rounded [pow] returns for the exponents 2 and 1/2 on
    a positive finite base. *)
Definition rounded_pow (x y : binary64) : binary64 :=
  if y =? 2 then x * x else if y =? 0.5 then sqrt x else nan.

Definition pointer_at (xdata ydata : binary64) : MouseEvent.t :=
  MouseEvent.mk (Some ax) 0 0 xdata ydata.

(** The test line of the script, from (5, 5) to (500, 500), with handle
    [idx] grabbed.  The script writes the coordinates as the ints 5 and 500,
    which the sums of [_on_move] convert to these floats. *)
Definition test_line_grabbed (idx : option index) : DraggableLine.t :=
  DraggableLine.with_handle_idx
    (DraggableLine.with_drawon
       (DraggableLine.__init__ ax (python 5, python 500)
                                  (python 5, python 500) 10)
       false)
    idx.

(** The scenario of the specification: a reference line from (0, 0) to
    (0, 26) of reference length 26 and a test line from (0, 0) to (0, 13). *)
Definition scenario : Program :=
  {| ref_line := DraggableLine.__init__ ax (python 0, python 0)
                                           (python 0, python 26) 10;
     ref_text := "26";
     test_line := DraggableLine.__init__ ax (python 0, python 0)
                                            (python 0, python 13) 10;
     measured_box := "???" |}.

End Binary64.

(** * Properties *)

(** ** Comparisons and small facts *)

Lemma Rltb_true (a b : R) : Rltb a b = true <-> a < b.
Proof.
  unfold Rltb; destruct (Rlt_dec a b); split; intros; congruence || lra.
Qed.

Lemma Rltb_false (a b : R) : Rltb a b = false <-> b <= a.
Proof.
  unfold Rltb; destruct (Rlt_dec a b); split; intros; congruence || lra.
Qed.

Lemma Reqb_true (a b : R) : Reqb a b = true <-> a = b.
Proof. unfold Reqb; destruct (Req_dec_T a b); split; intros; congruence. Qed.

Lemma Reqb_false (a b : R) : Reqb a b = false <-> a <> b.
Proof. unfold Reqb; destruct (Req_dec_T a b); split; intros; congruence. Qed.

Lemma index_eqb_eq (i j : index) : index_eqb i j = true <-> i = j.
Proof. destruct i, j; simpl; split; intros; congruence. Qed.

Lemma not_in_false (a : Axes) (event : MouseEvent.t) :
  not_in a event = false <-> MouseEvent.inaxes event = Some a.
Proof.
  unfold not_in; destruct (MouseEvent.inaxes event) as [b|].
  - destruct a, b; simpl; split; intros; congruence.
  - split; intros; congruence.
Qed.

(** ** The builtins on sample inputs *)

Example argmin_first_minimum :
  argmin (Triple 1 1 1) = I0 /\ argmin (Triple 2 1 1) = I1
  /\ argmin (Triple 2 2 1) = I2 /\ argmin (Triple 1 2 1) = I0.
Proof.
  unfold argmin, Rltb; simpl.
  repeat split; repeat (destruct (Rlt_dec _ _); simpl in *; try lra);
    reflexivity.
Qed.

Example float_accepts :
  float "  +1_0.25E-1 " = Return (Finite 1.025)
  /\ float "1e5" = Return (Finite 100000)
  /\ float "-Infinity" = Return (Inf true)
  /\ float "NAN" = Return NaN.
Proof.
  repeat split; try reflexivity;
    unfold float; cbv -[IZR powerRZ Rmult Ropp Rdiv];
    do 2 f_equal; simpl; lra.
Qed.

Example float_rejects :
  float "" = Raise ValueError /\ float "1,5" = Raise ValueError
  /\ float "0x1A" = Raise ValueError /\ float "1__0" = Raise ValueError
  /\ float "26 in" = Raise ValueError
  /\ float (String (ascii_of_nat 28) "1") = Raise ValueError.
Proof. repeat split; reflexivity. Qed.

(** ** Lengths *)

Lemma get_length_euclidean (self : DraggableLine.t) :
  val (DraggableLine.get_length self) = length self.
Proof.
  unfold length, DraggableLine.get_length, DraggableLine.get_endpoints,
    euclidean.
  destruct self as [a [x y] i g d]; simpl.
  f_equal. unfold Rsqr; ring.
Qed.

Lemma on_press_handles self canvas event :
  DraggableLine._handles (DraggableLine._on_press self canvas event)
  = DraggableLine._handles self.
Proof.
  unfold DraggableLine._on_press.
  destruct (not_in _ _); [reflexivity|].
  destruct (negb _); [reflexivity|].
  destruct (Rltb _ _); reflexivity.
Qed.

(** ** Dragging an endpoint *)

(** C5. With an endpoint handle grabbed, a move inside the axes puts that
    endpoint at the pointer's data position, leaves the other endpoint as it
    was, stores the mean of the two endpoints as the midpoint, keeps the
    handle grabbed, and sends "line-changed" with the two endpoints of the
    moved line (followed by a redraw when [drawon] is set). *)
Theorem endpoint_drag :
  forall (self : DraggableLine.t) (event : MouseEvent.t) (i : index),
    DraggableLine._handle_idx self = Some i ->
    i <> I1 ->
    MouseEvent.inaxes event = Some (DraggableLine.ax self) ->
    let self' := fst (DraggableLine._on_move self event) in
    let h := DraggableLine._handles self in
    let h' := DraggableLine._handles self' in
    get (xorig h') i = float64 (MouseEvent.xdata event)
    /\ get (yorig h') i = float64 (MouseEvent.ydata event)
    /\ get (xorig h') (other i) = get (xorig h) (other i)
    /\ get (yorig h') (other i) = get (yorig h) (other i)
    /\ at1 (xorig h') = halve (add (at0 (xorig h')) (at2 (xorig h')))
    /\ at1 (yorig h') = halve (add (at0 (yorig h')) (at2 (yorig h')))
    /\ midpoint_is_mean self'
    /\ DraggableLine._handle_idx self' = Some i
    /\ snd (DraggableLine._on_move self event)
       = LineChanged (fst (DraggableLine.get_endpoints self'))
                     (snd (DraggableLine.get_endpoints self'))
           :: (if DraggableLine.drawon self then [DrawIdle] else []).
Proof.
  intros self event i Hidx Hi Hin. cbv zeta.
  unfold DraggableLine._on_move.
  apply not_in_false in Hin. rewrite Hin, Hidx.
  destruct self as [a [x y] j g d]; simpl.
  destruct i; try congruence; simpl; repeat split;
    reflexivity || exact Hidx.
Qed.

Lemma endpoint_drag_witness :
  let self := DraggableLine.with_handle_idx
                (DraggableLine.__init__ ax (python 0, python 4)
                                           (python 0, python 2) 10)
                (Some I2) in
  let event := MouseEvent.mk (Some ax) 30 40 6 8 in
  let h' := DraggableLine._handles
              (fst (DraggableLine._on_move self event)) in
  xorig h'
  = Triple (python 0) (halve (add (python 0) (float64 6))) (float64 6)
  /\ yorig h'
     = Triple (python 0) (halve (add (python 0) (float64 8))) (float64 8).
Proof.
  intros self event h'.
  assert (Hi : I2 <> I1) by discriminate.
  pose proof (endpoint_drag self event I2 eq_refl Hi eq_refl) as H.
  cbv zeta in H.
  destruct H as (Hx & Hy & Hx0 & Hy0 & Hmx & Hmy & _).
  subst h'. split.
  - destruct (xorig _) as [a b c]; simpl in *. subst; reflexivity.
  - destruct (yorig _) as [a b c]; simpl in *. subst; reflexivity.
Defined.

(** ** Events outside the axes *)

(** C9, as the code has it.  A press or a move whose pointer is not over the
    line's axes is ignored entirely: the line is unchanged and nothing is
    sent.  A release is handled wherever the pointer is: it changes no
    handle position, and it clears the grabbed handle. *)
Theorem outside_events :
  forall (self : DraggableLine.t) (canvas : Canvas) (event : MouseEvent.t),
    MouseEvent.inaxes event <> Some (DraggableLine.ax self) ->
    DraggableLine._on_press self canvas event = self
    /\ DraggableLine._on_move self event = (self, [])
    /\ DraggableLine._handles (DraggableLine._on_release self event)
       = DraggableLine._handles self
    /\ DraggableLine._handle_idx (DraggableLine._on_release self event) = None.
Proof.
  intros self canvas event Hout.
  assert (Hn : not_in (DraggableLine.ax self) event = true).
  { destruct (not_in (DraggableLine.ax self) event) eqn:E; [reflexivity|].
    apply not_in_false in E. contradiction. }
  unfold DraggableLine._on_press, DraggableLine._on_move.
  rewrite Hn. repeat split; reflexivity.
Qed.

Lemma outside_events_witness :
  let event := MouseEvent.mk (Some axbox1) 0 0 0 0 in
  DraggableLine._on_move (short_line (Some I0)) event
  = (short_line (Some I0), []).
Proof.
  intros event.
  assert (H : MouseEvent.inaxes event
              <> Some (DraggableLine.ax (short_line (Some I0))))
    by discriminate.
  exact (proj1 (proj2 (outside_events (short_line (Some I0))
                         (plain_canvas true) event H))).
Defined.

(** C9 as stated fails on a release: with endpoint 0 grabbed, a release whose
    pointer is outside every axes does change the grabbed-handle state. *)
Lemma outside_release_clears_grab :
  let self := short_line (Some I0) in
  let event := MouseEvent.mk None 700 5 0 0 in
  MouseEvent.inaxes event <> Some (DraggableLine.ax self)
  /\ DraggableLine._handle_idx self = Some I0
  /\ DraggableLine._handle_idx (DraggableLine._on_release self event)
     <> DraggableLine._handle_idx self.
Proof.
  simpl. repeat split; discriminate.
Qed.

(** ** Pressing *)

Lemma argmin_least (d : triple R) (j : index) :
  get d (argmin d) <= get d j.
Proof.
  unfold argmin, Rltb. destruct d as [a b c]; simpl.
  destruct (Rlt_dec b a); simpl;
    [destruct (Rlt_dec c b) | destruct (Rlt_dec c a)];
    destruct j; simpl; lra.
Qed.

Lemma argmin_first (d : triple R) (j : index) :
  get d j = get d (argmin d) -> (index_nat (argmin d) <= index_nat j)%nat.
Proof.
  unfold argmin, Rltb. destruct d as [a b c]; simpl.
  destruct (Rlt_dec b a); simpl;
    [destruct (Rlt_dec c b) | destruct (Rlt_dec c a)];
    destruct j; simpl; intros; lia || lra.
Qed.

Lemma dist_pixel_distance self canvas event i :
  get (DraggableLine.dist self canvas event) i
  = pixel_distance self canvas event i.
Proof.
  unfold DraggableLine.dist, pixel_distance, handle_point, hypot.
  destruct self as [a [x y] k g d]; simpl.
  destruct i; simpl; f_equal; unfold Rsqr; ring.
Qed.

Lemma nearest_least self canvas event j :
  pixel_distance self canvas event (nearest self canvas event)
  <= pixel_distance self canvas event j.
Proof. rewrite <- !dist_pixel_distance. apply argmin_least. Qed.

Lemma nearest_first self canvas event j :
  pixel_distance self canvas event j
  = pixel_distance self canvas event (nearest self canvas event) ->
  (index_nat (nearest self canvas event) <= index_nat j)%nat.
Proof. rewrite <- !dist_pixel_distance. apply argmin_first. Qed.

Lemma on_press_processed self canvas event :
  processed self canvas event ->
  DraggableLine._on_press self canvas event
  = DraggableLine.with_handle_idx self
      (if Rltb (pixel_distance self canvas event (nearest self canvas event))
               (DraggableLine._grab_range self)
       then Some (nearest self canvas event) else None).
Proof.
  intros [Hin Hlock]. unfold DraggableLine._on_press.
  apply not_in_false in Hin. rewrite Hin, Hlock. simpl.
  rewrite dist_pixel_distance. fold (nearest self canvas event).
  destruct (Rltb _ _); reflexivity.
Qed.

Lemma on_press_blocked self canvas event :
  widgetlock_available canvas = false ->
  DraggableLine._on_press self canvas event = self.
Proof.
  intros Hlock. unfold DraggableLine._on_press.
  rewrite Hlock. destruct (not_in _ _); reflexivity.
Qed.

(** C6, as the code has it.  A press inside the axes while the canvas'
    widget lock is available grabs the handle nearest to the pointer in
    pixels (the first of the nearest ones, in the order endpoint 0, midpoint,
    endpoint 1) when its distance is strictly below the grab range, and
    clears the grab otherwise; the handle positions are untouched.  A press
    inside the axes while the lock is held elsewhere is ignored.  The handler
    returns in every case. *)
Theorem press_grabs_nearest :
  forall (self : DraggableLine.t) (canvas : Canvas) (event : MouseEvent.t),
    MouseEvent.inaxes event = Some (DraggableLine.ax self) ->
    let self' := DraggableLine._on_press self canvas event in
    let d := pixel_distance self canvas event in
    (widgetlock_available canvas = true ->
     exists i : index,
       (forall j, d i <= d j)
       /\ (forall j, d j = d i -> (index_nat i <= index_nat j)%nat)
       /\ (d i < DraggableLine._grab_range self ->
           DraggableLine._handle_idx self' = Some i)
       /\ (DraggableLine._grab_range self <= d i ->
           DraggableLine._handle_idx self' = None)
       /\ DraggableLine._handles self' = DraggableLine._handles self)
    /\ (widgetlock_available canvas = false -> self' = self).
Proof.
  intros self canvas event Hin. cbv zeta.
  split; [|apply on_press_blocked].
  intros Hlock. exists (nearest self canvas event).
  rewrite (on_press_processed self canvas event (conj Hin Hlock)).
  repeat split.
  - apply nearest_least.
  - apply nearest_first.
  - intros H. apply Rltb_true in H. rewrite H. reflexivity.
  - intros H. apply Rltb_false in H. rewrite H. reflexivity.
Qed.

(** Distances to the handles of [short_line] for a pointer on its row. *)
Lemma short_line_distance idx lock a ex xd yd j :
  pixel_distance (short_line idx) (plain_canvas lock)
                 (MouseEvent.mk a ex 0 xd yd) j
  = Rabs (fst (handle_point (short_line idx) j) - ex).
Proof.
  rewrite <- sqrt_Rsqr_abs. unfold pixel_distance.
  destruct j; simpl; f_equal; unfold Rsqr; field.
Qed.

Ltac distances :=
  rewrite ?short_line_distance; simpl;
  unfold Rabs; repeat destruct (Rcase_abs _); lra.

Lemma press_grabs_nearest_witness :
  DraggableLine._handle_idx
    (DraggableLine._on_press (short_line None) (plain_canvas true)
                             (MouseEvent.mk (Some ax) 3 0 3 0))
  = Some I1.
Proof.
  destruct (proj1 (press_grabs_nearest (short_line None) (plain_canvas true)
                     (MouseEvent.mk (Some ax) 3 0 3 0) eq_refl) eq_refl)
    as (i & Hleast & Hfirst & Hnear & _).
  assert (Hd : pixel_distance (short_line None) (plain_canvas true)
                 (MouseEvent.mk (Some ax) 3 0 3 0) i < 10).
  { apply Rle_lt_trans with (1 := Hleast I1). distances. }
  rewrite (Hnear Hd). f_equal.
  destruct i; [exfalso | reflexivity | exfalso].
  - specialize (Hleast I1). revert Hleast. distances.
  - specialize (Hfirst I1). simpl in Hfirst.
    assert (2 <= 1)%nat; [apply Hfirst; distances | lia].
Defined.

(** C6 as stated fails while the widget lock is held elsewhere (the toolbar's
    pan or zoom tool, say): a press inside the axes, right on endpoint 0,
    grabs nothing. *)
Lemma locked_press_grabs_nothing :
  let self := short_line None in
  let canvas := plain_canvas false in
  let event := MouseEvent.mk (Some ax) 0 0 0 0 in
  MouseEvent.inaxes event = Some (DraggableLine.ax self)
  /\ (forall j, pixel_distance self canvas event I0
                <= pixel_distance self canvas event j)
  /\ pixel_distance self canvas event I0 < DraggableLine._grab_range self
  /\ DraggableLine._handle_idx (DraggableLine._on_press self canvas event)
     <> Some I0.
Proof.
  cbv zeta. split; [reflexivity|]. split; [|split].
  - intros j. destruct j; distances.
  - distances.
  - rewrite on_press_blocked by reflexivity. discriminate.
Qed.

(** C10, as the code has it.  When a press is processed (inside the axes,
    widget lock available), a handle ends up grabbed only if its pixel
    distance is strictly below [_grab_range]; at a nearest distance exactly
    equal to [_grab_range] no handle is grabbed afterwards, whatever was
    grabbed before. *)
Theorem grab_comparison_strict :
  forall (self : DraggableLine.t) (canvas : Canvas) (event : MouseEvent.t),
    processed self canvas event ->
    let self' := DraggableLine._on_press self canvas event in
    let d := pixel_distance self canvas event in
    (forall j, DraggableLine._handle_idx self' = Some j ->
               d j < DraggableLine._grab_range self)
    /\ ((exists i, (forall j, d i <= d j)
                   /\ d i = DraggableLine._grab_range self) ->
        DraggableLine._handle_idx self' = None).
Proof.
  intros self canvas event Hp. cbv zeta.
  rewrite (on_press_processed self canvas event Hp).
  destruct (Rltb _ _) eqn:E; simpl.
  - apply Rltb_true in E. split.
    + intros j Hj. injection Hj as <-. exact E.
    + intros (i & Hleast & Heq). exfalso.
      specialize (Hleast (nearest self canvas event)). lra.
  - split; [discriminate | reflexivity].
Qed.

Lemma grab_comparison_strict_witness :
  DraggableLine._handle_idx
    (DraggableLine._on_press (short_line (Some I2)) (plain_canvas true)
                             (MouseEvent.mk (Some ax) (-10) 0 (-10) 0))
  = None.
Proof.
  apply (grab_comparison_strict (short_line (Some I2)) (plain_canvas true)
           (MouseEvent.mk (Some ax) (-10) 0 (-10) 0) (conj eq_refl eq_refl)).
  exists I0. split.
  - intros j. destruct j; distances.
  - distances.
Defined.

(** C10 as stated fails for a press that the widget-lock guard stops: exactly
    [_grab_range] pixels from the nearest handle, inside the axes, it leaves
    the previously grabbed endpoint grabbed. *)
Lemma locked_press_keeps_grab :
  let self := short_line (Some I2) in
  let canvas := plain_canvas false in
  let event := MouseEvent.mk (Some ax) (-10) 0 (-10) 0 in
  (forall j, pixel_distance self canvas event I0
             <= pixel_distance self canvas event j)
  /\ pixel_distance self canvas event I0 = DraggableLine._grab_range self
  /\ DraggableLine._handle_idx (DraggableLine._on_press self canvas event)
     = Some I2.
Proof.
  cbv zeta. split; [|split].
  - intros j. destruct j; distances.
  - distances.
  - rewrite on_press_blocked by reflexivity. reflexivity.
Qed.

(** ** Moves with nothing grabbed *)

Lemma with_handle_idx_same self :
  DraggableLine.with_handle_idx self (DraggableLine._handle_idx self) = self.
Proof. destruct self; reflexivity. Qed.

Lemma on_move_idle self event :
  DraggableLine._handle_idx self = None ->
  DraggableLine._on_move self event = (self, []).
Proof.
  intros H. unfold DraggableLine._on_move. rewrite H.
  destruct (not_in _ _); reflexivity.
Qed.

Lemma step_idle self e :
  DraggableLine._handle_idx self = None ->
  DraggableLine._handle_idx (fst (step self e)) = None ->
  step self e = (self, []).
Proof.
  intros H H'. destruct e as [canvas event | event | event]; simpl in *.
  - f_equal. revert H'. unfold DraggableLine._on_press.
    destruct (not_in _ _); [reflexivity|].
    destruct (negb _); [reflexivity|].
    destruct (Rltb _ _); simpl; [discriminate|].
    intros _. rewrite <- H. apply with_handle_idx_same.
  - apply on_move_idle, H.
  - f_equal. unfold DraggableLine._on_release.
    rewrite <- H. apply with_handle_idx_same.
Qed.

Lemma run_idle es : forall self,
  DraggableLine._handle_idx self = None ->
  ungrabbed self es = true ->
  run self es = (self, []).
Proof.
  induction es as [|e es IH]; intros self H Hu; simpl in *; [reflexivity|].
  destruct (DraggableLine._handle_idx (fst (step self e))) eqn:E;
    [discriminate|].
  rewrite (step_idle self e H E) in *. simpl in Hu.
  rewrite (IH self H Hu). reflexivity.
Qed.

Lemma ungrabbed_moves self (moves : list MouseEvent.t) :
  DraggableLine._handle_idx self = None ->
  ungrabbed self (map Move moves) = true.
Proof.
  intros H. induction moves as [|m ms IH]; simpl; [reflexivity|].
  rewrite (on_move_idle self m H). simpl. rewrite H. exact IH.
Qed.

(** C7, as the code has it.  Take a press farther than the grab range from
    all three handles that is processed (inside the axes, widget lock
    available) or that arrives while nothing is grabbed.  Afterwards no
    handle is grabbed, every move is a no-op (same line, nothing sent), and
    so is every run of events in which no press grabs a handle. *)
Theorem far_press_then_moves_are_noops :
  forall (self : DraggableLine.t) (canvas : Canvas) (press : MouseEvent.t),
    (forall j, DraggableLine._grab_range self
               < pixel_distance self canvas press j) ->
    processed self canvas press \/ DraggableLine._handle_idx self = None ->
    let self' := DraggableLine._on_press self canvas press in
    DraggableLine._handle_idx self' = None
    /\ DraggableLine._handles self' = DraggableLine._handles self
    /\ (forall move, DraggableLine._on_move self' move = (self', []))
    /\ (forall moves, run self' (map Move moves) = (self', []))
    /\ (forall es, ungrabbed self' es = true -> run self' es = (self', [])).
Proof.
  intros self canvas press Hfar Hcase. cbv zeta.
  assert (Hidle : DraggableLine._handle_idx
                    (DraggableLine._on_press self canvas press) = None).
  { destruct Hcase as [Hp | Hnone].
    - rewrite (on_press_processed self canvas press Hp).
      specialize (Hfar (nearest self canvas press)).
      assert (E : Rltb (pixel_distance self canvas press
                          (nearest self canvas press))
                       (DraggableLine._grab_range self) = false)
        by (apply Rltb_false; lra).
      rewrite E. reflexivity.
    - unfold DraggableLine._on_press.
      destruct (not_in _ _); [exact Hnone|].
      destruct (negb _); [exact Hnone|].
      rewrite dist_pixel_distance. fold (nearest self canvas press).
      specialize (Hfar (nearest self canvas press)).
      assert (E : Rltb (pixel_distance self canvas press
                          (nearest self canvas press))
                       (DraggableLine._grab_range self) = false)
        by (apply Rltb_false; lra).
      rewrite E. reflexivity. }
  split; [exact Hidle|]. split; [apply on_press_handles|].
  split; [intros move; apply on_move_idle, Hidle|].
  split.
  - intros moves. apply run_idle; [exact Hidle|].
    apply ungrabbed_moves, Hidle.
  - intros es. apply run_idle, Hidle.
Qed.

Lemma far_press_then_moves_are_noops_witness :
  let self' := DraggableLine._on_press (short_line (Some I2))
                 (plain_canvas true) (MouseEvent.mk (Some ax) 100 0 100 0) in
  DraggableLine._handle_idx self' = None
  /\ DraggableLine._on_move self' (MouseEvent.mk (Some ax) 9 9 9 9)
     = (self', []).
Proof.
  intros self'.
  assert (Hfar : forall j,
             DraggableLine._grab_range (short_line (Some I2))
             < pixel_distance (short_line (Some I2)) (plain_canvas true)
                              (MouseEvent.mk (Some ax) 100 0 100 0) j)
    by (intros j; destruct j; distances).
  pose proof (far_press_then_moves_are_noops (short_line (Some I2))
                (plain_canvas true) (MouseEvent.mk (Some ax) 100 0 100 0)
                Hfar (or_introl (conj eq_refl eq_refl))) as H.
  split; [exact (proj1 H) | exact (proj1 (proj2 (proj2 H)) _)].
Defined.

(** C7 as stated fails for a far press that the widget-lock guard stops
    while endpoint 1 is grabbed: the handle stays grabbed and the next move
    drags it. *)
Lemma locked_far_press_keeps_dragging :
  let self := short_line (Some I2) in
  let canvas := plain_canvas false in
  let press := MouseEvent.mk (Some ax) 100 0 100 0 in
  let move := MouseEvent.mk (Some ax) 9 9 9 9 in
  let self' := DraggableLine._on_press self canvas press in
  (forall j, DraggableLine._grab_range self
             < pixel_distance self canvas press j)
  /\ DraggableLine._handle_idx self' = Some I2
  /\ handle_point (fst (DraggableLine._on_move self' move)) I2 = (9, 9)
  /\ handle_point self' I2 = (4, 0)
  /\ snd (DraggableLine._on_move self' move) <> [].
Proof.
  cbv zeta. split.
  - intros j; destruct j; distances.
  - rewrite on_press_blocked by reflexivity.
    repeat split; discriminate.
Qed.

(** ** The readout *)

Lemma Int_part_floor (r : R) (z : Z) :
  IZR z <= r < IZR z + 1 -> Int_part r = z.
Proof.
  intros H. unfold Int_part.
  assert (Hup : (z + 1)%Z = up r)
    by (apply tech_up; rewrite plus_IZR; lra).
  rewrite <- Hup. lia.
Qed.

Lemma Int_part_IZR (z : Z) : Int_part (IZR z) = z.
Proof. apply Int_part_floor. lra. Qed.

Lemma round_half_even_IZR (z : Z) : round_half_even (IZR z) = z.
Proof.
  unfold round_half_even. rewrite Int_part_IZR.
  assert (E : Rltb (IZR z - IZR z) (1 / 2) = true) by (apply Rltb_true; lra).
  rewrite E. reflexivity.
Qed.

Lemma float_raises text e : float text = Raise e -> e = ValueError.
Proof.
  unfold float. destruct (sign _) as [neg body].
  destruct (_ || _)%bool; [discriminate|].
  destruct (String.eqb _ _); [discriminate|].
  destruct (floatnumber body); [discriminate|].
  congruence.
Qed.

Lemma update_finite test_length p L :
  float (ref_text p) = Return (Finite L) ->
  length (ref_line p) <> 0 ->
  update_test_readout test_length p
  = Return (set_val p (format_2f
      (Finite (L * val (used_test_length test_length p)
                 / length (ref_line p))))).
Proof.
  intros Hf Hz. unfold update_test_readout, truediv.
  fold (used_test_length test_length p).
  rewrite Hf, get_length_euclidean.
  apply Reqb_false in Hz. rewrite Hz. reflexivity.
Qed.

(** The signal of a move carries the endpoints of the moved line, so the
    length that [test_moved] computes from it is the line's [get_length]. *)
Lemma on_move_effects self event :
  DraggableLine._on_move self event = (self, [])
  \/ snd (DraggableLine._on_move self event)
     = LineChanged
         (fst (DraggableLine.get_endpoints
                 (fst (DraggableLine._on_move self event))))
         (snd (DraggableLine.get_endpoints
                 (fst (DraggableLine._on_move self event))))
         :: (if DraggableLine.drawon self then [DrawIdle] else []).
Proof.
  unfold DraggableLine._on_move.
  destruct (not_in _ _); [left; reflexivity|].
  destruct self as [a [x y] [i|] g d]; simpl; [|left; reflexivity].
  right. destruct (index_eqb i I1); reflexivity.
Qed.

Lemma test_moved_endpoints (l : DraggableLine.t) (p : Program) :
  test_moved (fst (DraggableLine.get_endpoints l))
             (snd (DraggableLine.get_endpoints l)) p
  = update_test_readout (Some (DraggableLine.get_length l)) p.
Proof. destruct l as [a [x y] i g d]; reflexivity. Qed.

Lemma process_ref effects p : process RefLine effects p = (p, None).
Proof.
  induction effects as [|[x y|] effects IH]; simpl; [reflexivity| |exact IH].
  rewrite IH. reflexivity.
Qed.

Lemma process_draws l (b : bool) p :
  process l (if b then [DrawIdle] else []) p = (p, None).
Proof. destruct b; reflexivity. Qed.

Lemma handle_motion p event :
  handle p (motion_notify_event event)
  = if test_line_changes p event
    then report (moved p event) (update_test_readout None (moved p event))
    else (moved p event, None).
Proof.
  unfold handle, moved, test_line_changes.
  destruct (DraggableLine._on_move (ref_line p) event) as [r effects_r].
  rewrite process_ref. simpl.
  destruct (on_move_effects (test_line p) event) as [H | H].
  - rewrite H. reflexivity.
  - destruct (DraggableLine._on_move (test_line p) event) as [t effects_t].
    cbn [fst snd] in *. subst effects_t.
    cbn [process call_observers line_changed_observers].
    rewrite test_moved_endpoints.
    change (update_test_readout (Some (DraggableLine.get_length t))
              (with_test_line (with_ref_line p r) t))
      with (update_test_readout None (with_test_line (with_ref_line p r) t)).
    destruct (update_test_readout None _) as [p'|e]; cbn [fst report];
      rewrite process_draws; reflexivity.
Qed.

Lemma handle_text p text :
  handle p (ref_text_change text)
  = report (with_ref_text p text)
           (update_test_readout None (with_ref_text p text)).
Proof. reflexivity. Qed.

Lemma update_frame test_length q :
  let p' := fst (report q (update_test_readout test_length q)) in
  ref_line p' = ref_line q /\ test_line p' = test_line q
  /\ ref_text p' = ref_text q.
Proof.
  unfold update_test_readout.
  destruct (float (ref_text q)) as [f|e]; simpl; [|auto].
  destruct (truediv _ _ _) as [v|e]; simpl; auto.
Qed.

Lemma format_2f_hundredths (r : R) (n : Z) :
  0 <= r -> r * 100 = IZR n ->
  format_2f (Finite r)
  = (NilZero.string_of_uint (N.to_uint (Z.to_N (n / 100)))
     ++ "." ++ digit_string ((n mod 100) / 10) ++ digit_string (n mod 10))%string.
Proof.
  intros Hr Hn. unfold format_2f.
  rewrite Rabs_pos_eq by exact Hr. rewrite Hn, round_half_even_IZR.
  assert (E : Rltb r 0 = false) by (apply Rltb_false; exact Hr).
  rewrite E. reflexivity.
Qed.

Example format_2f_samples :
  format_2f (Finite 1234.5) = "1234.50"%string
  /\ format_2f (Finite 0.05) = "0.05"%string
  /\ format_2f (Finite 0.125) = "0.12"%string
  /\ format_2f (Finite (- 0.001)) = "-0.00"%string.
Proof.
  split; [|split; [|split]].
  - rewrite (format_2f_hundredths 1234.5 123450) by lra. reflexivity.
  - rewrite (format_2f_hundredths 0.05 5) by lra. reflexivity.
  - unfold format_2f, round_half_even.
    rewrite Rabs_pos_eq by lra.
    rewrite (Int_part_floor (0.125 * 100) 12) by lra.
    assert (E1 : Rltb (0.125 * 100 - 12) (1 / 2) = false)
      by (apply Rltb_false; lra).
    assert (E2 : Rltb (1 / 2) (0.125 * 100 - 12) = false)
      by (apply Rltb_false; lra).
    assert (E3 : Rltb 0.125 0 = false) by (apply Rltb_false; lra).
    rewrite E1, E2, E3. reflexivity.
  - unfold format_2f, round_half_even.
    rewrite Rabs_left by lra.
    rewrite (Int_part_floor (- - 0.001 * 100) 0) by lra.
    assert (E1 : Rltb (- - 0.001 * 100 - 0) (1 / 2) = true)
      by (apply Rltb_true; lra).
    assert (E3 : Rltb (- 0.001) 0 = true) by (apply Rltb_true; lra).
    rewrite E1, E3. reflexivity.
Qed.

Lemma length_vertical ax0 a b g :
  0 <= b ->
  length (DraggableLine.__init__ ax0 (python a, python a)
                                     (python 0, python b) g) = b.
Proof.
  intros Hb. unfold length, euclidean; simpl.
  replace (Rsqr (a - a) + Rsqr (b - 0)) with (Rsqr b)
    by (unfold Rsqr; ring).
  apply sqrt_Rsqr, Hb.
Qed.

Lemma float_26 : float "26" = Return (Finite 26).
Proof.
  unfold float. cbv -[IZR powerRZ Rmult Ropp].
  do 2 f_equal. simpl. lra.
Qed.

(** ** When the script recomputes *)

(** What [handle] does, event by event: the widgets and text boxes take the
    event, and then [update_test_readout()] runs or does not. *)
Lemma handle_outcome p e :
  handle p e
  = if recomputes p e
    then report (after_widgets p e)
                (update_test_readout None (after_widgets p e))
    else (after_widgets p e, None).
Proof.
  destruct e as [canvas event | event | event | text | text];
    try reflexivity.
  apply handle_motion.
Qed.

(** C3, as the code has it.  The readout is recomputed and rewritten on
    every "line-changed" of the test line and on every edit of the reference
    box.  On any other event, a "line-changed" of the reference line included,
    nothing is recomputed, and the readout keeps its text unless the user
    typed into the readout box itself. *)
Theorem recompute_triggers :
  forall (p : Program) (e : gui_event),
    if recomputes p e
    then recomputed p e
    else handle p e = (after_widgets p e, None)
         /\ ((forall text, e <> measured_box_change text) ->
             measured_box (fst (handle p e)) = measured_box p).
Proof.
  intros p e. unfold recomputed. rewrite (handle_outcome p e).
  destruct (recomputes p e) eqn:E; [reflexivity|].
  split; [reflexivity|]. intros Hbox. cbn [fst].
  destruct e as [canvas event | event | event | text | text];
    try reflexivity; try discriminate E.
  elim (Hbox text). reflexivity.
Qed.

Lemma length_points (self : DraggableLine.t) :
  length self
  = sqrt (Rsqr (fst (handle_point self I2) - fst (handle_point self I0))
          + Rsqr (snd (handle_point self I2) - snd (handle_point self I0))).
Proof. destruct self as [a [x y] i g d]; reflexivity. Qed.

Lemma recompute_triggers_witness :
  measured_box
    (fst (handle dragging_reference
            (motion_notify_event (MouseEvent.mk (Some ax) 0 0 0 13))))
  = measured_box dragging_reference.
Proof.
  apply (recompute_triggers dragging_reference
           (motion_notify_event (MouseEvent.mk (Some ax) 0 0 0 13))).
  intros text. discriminate.
Defined.

(** C3 as stated fails for the reference line: dragging its endpoint from
    (0, 26) to (0, 13) sends "line-changed", yet the readout still shows
    13.00 where a recomputation would write 26.00. *)
Lemma reference_move_not_recomputed :
  let p := dragging_reference in
  let event := MouseEvent.mk (Some ax) 0 0 0 13 in
  let e := motion_notify_event event in
  ref_line_changes p event = true
  /\ handle_point (ref_line (fst (handle p e))) I2 = (0, 13)
  /\ measured_box (fst (handle p e)) = "13.00"%string
  /\ update_test_readout None (fst (handle p e))
     = Return (set_val (fst (handle p e)) "26.00")
  /\ ~ recomputed p e.
Proof.
  cbv zeta.
  set (event := MouseEvent.mk (Some ax) 0 0 0 13).
  assert (Hh : handle dragging_reference (motion_notify_event event)
               = (moved dragging_reference event, None))
    by (rewrite handle_motion; reflexivity).
  assert (Hu : update_test_readout None (moved dragging_reference event)
               = Return (set_val (moved dragging_reference event) "26.00")).
  { assert (Hr : length (ref_line (moved dragging_reference event)) = 13).
    { rewrite length_points. simpl.
      replace (Rsqr (0 - 0) + Rsqr (13 - 0)) with (Rsqr 13)
        by (unfold Rsqr; ring).
      apply sqrt_Rsqr; lra. }
    assert (Ht : length (test_line (moved dragging_reference event)) = 13)
      by (apply length_vertical; lra).
    rewrite (update_finite None (moved dragging_reference event) 26
               float_26) by (rewrite Hr; lra).
    cbn [used_test_length]. rewrite get_length_euclidean, Hr, Ht.
    rewrite (format_2f_hundredths (26 * 13 / 13) 2600) by lra.
    reflexivity. }
  split; [reflexivity|]. rewrite Hh. cbn [fst].
  split; [reflexivity|]. split; [reflexivity|]. split; [exact Hu|].
  unfold recomputed. rewrite Hh. simpl after_widgets. rewrite Hu.
  simpl report. intros H.
  apply (f_equal (fun r => measured_box (fst r))) in H.
  simpl in H. discriminate H.
Qed.

(** ** When the recomputation raises *)

Lemma non_finite_quotient (f : pyfloat) :
  non_finite_text
    (format_2f match f with
               | Finite r => if Reqb r 0 then NaN else Inf (Rltb r 0)
               | Inf s => Inf s
               | NaN => NaN
               end).
Proof.
  unfold non_finite_text.
  destruct f as [r|[|]|]; simpl; try tauto.
  destruct (Reqb r 0); [|destruct (Rltb r 0)]; simpl; tauto.
Qed.

(** The outcome of [update_test_readout], case by case. *)
Lemma update_cases test_length p :
  match float (ref_text p) with
  | Raise _ => update_test_readout test_length p = Raise ValueError
  | Return f =>
      if Reqb (length (ref_line p)) 0 then
        if python_operands test_length p
        then update_test_readout test_length p = Raise ZeroDivisionError
        else exists s, non_finite_text s
                       /\ update_test_readout test_length p
                          = Return (set_val p s)
      else exists s, update_test_readout test_length p
                     = Return (set_val p s)
  end.
Proof.
  unfold update_test_readout, truediv, python_operands.
  fold (used_test_length test_length p).
  rewrite <- get_length_euclidean.
  destruct (float (ref_text p)) as [f|e] eqn:Ef.
  - destruct (Reqb _ 0).
    + destruct (_ || _)%bool; simpl; [|reflexivity].
      eexists; split; [apply non_finite_quotient | reflexivity].
    + eexists; reflexivity.
  - rewrite (float_raises _ _ Ef). reflexivity.
Qed.

Lemma update_zero_division test_length p :
  update_test_readout test_length p = Raise ZeroDivisionError ->
  length (ref_line p) = 0 /\ python_operands test_length p = true.
Proof.
  intros Hr. pose proof (update_cases test_length p) as H.
  destruct (float (ref_text p)) as [f|e]; [|congruence].
  destruct (Reqb (length (ref_line p)) 0) eqn:Ez.
  - apply Reqb_true in Ez.
    destruct (python_operands test_length p); [auto|].
    destruct H as (s & _ & H). congruence.
  - destruct H as (s & H). congruence.
Qed.


Lemma float_twenty : float "twenty" = Raise ValueError.
Proof. reflexivity. Qed.


(** *** A zero-length reference line in the running script *)

Lemma sqrt_ge (r s : R) : 0 <= r -> r * r <= s -> r <= sqrt s.
Proof.
  intros Hr Hs. rewrite <- (sqrt_square r Hr).
  apply sqrt_le_1_alt, Hs.
Qed.

Lemma press_far self canvas event :
  processed self canvas event ->
  (forall j, DraggableLine._grab_range self
             <= pixel_distance self canvas event j) ->
  DraggableLine._on_press self canvas event
  = DraggableLine.with_handle_idx self None.
Proof.
  intros Hp Hfar. rewrite (on_press_processed self canvas event Hp).
  assert (E : Rltb (pixel_distance self canvas event
                      (nearest self canvas event))
                   (DraggableLine._grab_range self) = false)
    by (apply Rltb_false, Hfar).
  rewrite E. reflexivity.
Qed.

Lemma press_on self canvas event i :
  processed self canvas event ->
  pixel_distance self canvas event i = 0 ->
  0 < DraggableLine._grab_range self ->
  (forall j, (index_nat j < index_nat i)%nat ->
             0 < pixel_distance self canvas event j) ->
  DraggableLine._on_press self canvas event
  = DraggableLine.with_handle_idx self (Some i).
Proof.
  intros Hp Hi Hg Hbefore.
  rewrite (on_press_processed self canvas event Hp).
  pose proof (nearest_least self canvas event i) as Hle.
  assert (H0 : pixel_distance self canvas event (nearest self canvas event)
               = 0).
  { apply Rle_antisym; [lra|]. apply sqrt_pos. }
  assert (Hn : nearest self canvas event = i).
  { pose proof (nearest_first self canvas event i) as Hf.
    rewrite Hi, H0 in Hf. specialize (Hf eq_refl).
    destruct (Nat.lt_ge_cases (index_nat (nearest self canvas event))
                              (index_nat i)) as [Hlt | Hge].
    - specialize (Hbefore _ Hlt). lra.
    - destruct (nearest self canvas event), i; simpl in *;
        reflexivity || lia. }
  rewrite Hn, Hi.
  assert (E : Rltb 0 (DraggableLine._grab_range self) = true)
    by (apply Rltb_true, Hg).
  rewrite E. reflexivity.
Qed.

(** The grabbed state arises from the initial one by a press on endpoint 1
    of the reference line, which is far from the test line. *)
Lemma press_on_reference_endpoint :
  handle initial
    (button_press_event (plain_canvas true) (pointer_at ref_endpoint1))
  = (grabbed_reference, None).
Proof.
  unfold handle, grabbed_reference. f_equal.
  rewrite (press_on (ref_line initial) (plain_canvas true)
             (pointer_at ref_endpoint1) I2).
  - rewrite press_far; [reflexivity | split; reflexivity |].
    intros j. unfold pixel_distance.
    apply sqrt_ge; [simpl; lra|].
    destruct j; simpl; unfold Rsqr; lra.
  - split; reflexivity.
  - unfold pixel_distance. simpl.
    rewrite <- sqrt_0. f_equal. unfold Rsqr; ring.
  - simpl. lra.
  - intros j Hj. unfold pixel_distance. apply sqrt_lt_R0.
    destruct j; simpl in *; try lia; unfold Rsqr; lra.
Qed.

Lemma collapsed_eq :
  collapsed
  = with_ref_line grabbed_reference
      (fst (DraggableLine._on_move (ref_line grabbed_reference)
                                   (pointer_at ref_endpoint0))).
Proof. unfold collapsed. rewrite handle_motion. reflexivity. Qed.

Lemma initial_test_length_positive :
  0 < length (test_line initial).
Proof.
  rewrite length_points. apply sqrt_lt_R0. simpl. unfold Rsqr. lra.
Qed.


(** *** The script never raises ZeroDivisionError *)

Lemma on_move_numpy self event :
  DraggableLine._on_move self event = (self, [])
  \/ numpy (DraggableLine.get_length
              (fst (DraggableLine._on_move self event))) = true.
Proof.
  unfold DraggableLine._on_move.
  destruct (not_in _ _); [left; reflexivity|].
  destruct self as [a [x y] [i|] g d]; simpl; [|left; reflexivity].
  right. destruct i; simpl; rewrite ?orb_true_r; reflexivity.
Qed.

Lemma get_length_handles l l' :
  DraggableLine._handles l = DraggableLine._handles l' ->
  DraggableLine.get_length l = DraggableLine.get_length l'.
Proof.
  destruct l as [a h i g d], l' as [a' h' i' g' d']; simpl.
  intros ->. reflexivity.
Qed.

Lemma after_widgets_invariant p e :
  reference_untouched_or_numpy p ->
  reference_untouched_or_numpy (after_widgets p e).
Proof.
  unfold reference_untouched_or_numpy.
  destruct e as [canvas event | event | event | text | text];
    unfold after_widgets, moved;
    cbn [ref_line with_test_line with_ref_line with_ref_text set_val];
    intros H.
  - rewrite on_press_handles,
      (get_length_handles _ (ref_line p) (on_press_handles _ _ _)).
    exact H.
  - destruct (on_move_numpy (ref_line p) event) as [E | E].
    + rewrite E. exact H.
    + right. exact E.
  - exact H.
  - exact H.
  - exact H.
Qed.

Lemma update_never_divides_by_zero test_length p :
  reference_untouched_or_numpy p ->
  update_test_readout test_length p <> Raise ZeroDivisionError.
Proof.
  intros [H | H] Hr;
    apply update_zero_division in Hr; destruct Hr as (Hz & Ho).
  - rewrite <- get_length_euclidean, (get_length_handles _ _ H) in Hz.
    rewrite get_length_euclidean, length_points in Hz.
    apply sqrt_eq_0 in Hz;
      [simpl in Hz; unfold Rsqr in Hz; lra
      | apply Rplus_le_le_0_compat; apply Rle_0_sqr].
  - unfold python_operands in Ho. rewrite H, orb_true_r in Ho.
    discriminate.
Qed.

Lemma handle_invariant p e :
  reference_untouched_or_numpy p ->
  reference_untouched_or_numpy (fst (handle p e))
  /\ snd (handle p e) <> Some ZeroDivisionError.
Proof.
  intros H. pose proof (after_widgets_invariant p e H) as Ha.
  rewrite (handle_outcome p e). destruct (recomputes p e).
  - pose proof (update_never_divides_by_zero None _ Ha) as Hn.
    destruct (update_frame None (after_widgets p e)) as (Hr & _).
    split.
    + unfold reference_untouched_or_numpy in *. rewrite Hr. exact Ha.
    + destruct (update_test_readout None (after_widgets p e)) as [q|x];
        simpl; [discriminate|]. intros Hx. apply Hn. congruence.
  - split; [exact Ha | discriminate].
Qed.

(** Whatever the user does, the script never raises [ZeroDivisionError]: a
    reference line that was never moved has its initial, non-zero length, and
    a moved one has NumPy coordinates. *)
Theorem script_never_divides_by_zero :
  forall (es : list gui_event) (e : gui_event),
    snd (handle (play es) e) <> Some ZeroDivisionError.
Proof.
  intros es e. apply handle_invariant. unfold play.
  assert (H0 : reference_untouched_or_numpy initial) by (left; reflexivity).
  revert H0. generalize initial.
  induction es as [|e' es IH]; intros p Hp; simpl; [exact Hp|].
  apply IH, handle_invariant, Hp.
Qed.

(** * Properties of the arithmetic *)

Module Binary64Properties.

Import PrimFloat.
Import Binary64.
Local Open Scope float_scope.
Local Set Warnings "-inexact-float".

(** ** The builtins on sample inputs *)

Example float_rounds_to_nearest :
  float "26" = Return 26
  /\ float "2.675" = Return 0x1.5666666666666p+1
  /\ float "0.1" = Return 0x1.999999999999ap-4
  /\ float " 1_0.5e-1 " = Return 1.05
  /\ float "-0" = Return (- 0)
  /\ float "1e400" = Return infinity
  /\ float "-1e400" = Return neg_infinity
  /\ float "1e-400" = Return 0
  /\ float "2.4703282292062328e-324" = Return 0x1p-1074
  /\ float "2.4703282292062327e-324" = Return 0
  /\ float "1.7976931348623158e308" = Return 0x1.fffffffffffffp+1023
  /\ float "1.7976931348623159e308" = Return infinity
  /\ float "9007199254740993" = Return 9007199254740992
  /\ float "-Infinity" = Return neg_infinity
  /\ float "nan" = Return nan
  /\ float "twenty" = Raise ValueError
  /\ float "" = Raise ValueError.
Proof. repeat split; vm_compute; reflexivity. Qed.

(** The decimal numerals that the properties below write stand for the
    floats that [float] returns for them. *)
Example float_of_numerals :
  float "100.1" = Return 100.1
  /\ float "100.10000000000001" = Return 100.10000000000001
  /\ float "969.4" = Return 969.4
  /\ float "929.2" = Return 929.2
  /\ float "495.0000000000001" = Return 495.0000000000001
  /\ float "700.035713374682" = Return 700.035713374682
  /\ float "700.0357133746821" = Return 700.0357133746821
  /\ float "0.09999999999999432" = Return 0.09999999999999432
  /\ float "1e200" = Return 1e200
  /\ float "1e-200" = Return 1e-200.
Proof. repeat split; vm_compute; reflexivity. Qed.

(** Blanks around the number: a tab and U+00A0 are stripped, the separator
    U+001C is not. *)
Example float_strips_blanks :
  float (String (ascii_of_nat 9) "26 ") = Return 26
  /\ float (String (ascii_of_nat 160) "26") = Return 26
  /\ float (String (ascii_of_nat 28) "26") = Raise ValueError.
Proof. repeat split; vm_compute; reflexivity. Qed.

Example format_2f_rounds_the_float :
  format_2f 2.675 = "2.67"%string
  /\ format_2f 0.125 = "0.12"%string
  /\ format_2f 0.375 = "0.38"%string
  /\ format_2f 0.005 = "0.01"%string
  /\ format_2f 1234.5 = "1234.50"%string
  /\ format_2f (- 0.001) = "-0.00"%string
  /\ format_2f (- 0) = "-0.00"%string
  /\ format_2f 0 = "0.00"%string
  /\ format_2f 1e22 = "10000000000000000000000.00"%string
  /\ format_2f 0x1p-1074 = "0.00"%string
  /\ format_2f infinity = "inf"%string
  /\ format_2f neg_infinity = "-inf"%string
  /\ format_2f nan = "nan"%string.
Proof. repeat split; vm_compute; reflexivity. Qed.

(** ** The handle data *)

Lemma inaxes_not_in (a : Axes) (event : MouseEvent.t) :
  MouseEvent.inaxes event = Some a -> not_in a event = false.
Proof.
  unfold not_in. intros ->. destruct a; reflexivity.
Qed.

Lemma on_move_unchanged self event :
  not_in (DraggableLine.ax self) event = true
  \/ DraggableLine._handle_idx self = None ->
  DraggableLine._on_move self event = (self, []).
Proof.
  unfold DraggableLine._on_move. intros [H | H].
  - rewrite H. reflexivity.
  - rewrite H. destruct (not_in _ _); reflexivity.
Qed.

(** A move with the midpoint grabbed adds one offset to all three handles. *)
Lemma on_move_midpoint_handles self event j :
  MouseEvent.inaxes event = Some (DraggableLine.ax self) ->
  DraggableLine._handle_idx self = Some I1 ->
  let self' := fst (DraggableLine._on_move self event) in
  handle_x self' j
  = add (handle_x self j)
        (sub (float64 (MouseEvent.xdata event)) (handle_x self I1))
  /\ handle_y self' j
     = add (handle_y self j)
           (sub (float64 (MouseEvent.ydata event)) (handle_y self I1)).
Proof.
  intros Hin Hidx. cbv zeta. unfold DraggableLine._on_move.
  rewrite (inaxes_not_in _ _ Hin), Hidx.
  destruct self as [a [[x0 x1 x2] [y0 y1 y2]] k g d].
  destruct j; split; reflexivity.
Qed.

(** C2, as the code has it.  The stored midpoint is the mean of the stored
    endpoints, [(e0 + e1) / 2] as binary64 computes it, right after
    [__init__] and right after every move with an endpoint grabbed, whatever
    the line was before.  A move with the midpoint grabbed does not compute a
    mean: it stores midpoint + d, e0 + d and e1 + d for the one offset
    d = pointer - midpoint, each sum rounded on its own.  The other events
    (a move outside the axes or with nothing grabbed, a release) store
    nothing. *)
Theorem midpoint_mean_after_mutation :
  (forall (ax0 : Axes) (x y : number * number) (grab_range : binary64),
      midpoint_is_mean (DraggableLine.__init__ ax0 x y grab_range))
  /\ (forall (self : DraggableLine.t) (event : MouseEvent.t) (i : index),
        MouseEvent.inaxes event = Some (DraggableLine.ax self) ->
        DraggableLine._handle_idx self = Some i ->
        i <> I1 ->
        midpoint_is_mean (fst (DraggableLine._on_move self event)))
  /\ (forall (self : DraggableLine.t) (event : MouseEvent.t),
        MouseEvent.inaxes event = Some (DraggableLine.ax self) ->
        DraggableLine._handle_idx self = Some I1 ->
        let self' := fst (DraggableLine._on_move self event) in
        let dx := sub (float64 (MouseEvent.xdata event)) (handle_x self I1) in
        let dy := sub (float64 (MouseEvent.ydata event)) (handle_y self I1) in
        forall j : index,
          handle_x self' j = add (handle_x self j) dx
          /\ handle_y self' j = add (handle_y self j) dy)
  /\ (forall (self : DraggableLine.t) (event : MouseEvent.t),
        not_in (DraggableLine.ax self) event = true
        \/ DraggableLine._handle_idx self = None ->
        DraggableLine._on_move self event = (self, []))
  /\ (forall (self : DraggableLine.t) (event : MouseEvent.t),
        DraggableLine._handles (DraggableLine._on_release self event)
        = DraggableLine._handles self).
Proof.
  split; [|split; [|split; [|split]]].
  - intros ax0 x y grab_range. split; reflexivity.
  - intros self event i Hin Hidx Hi. unfold DraggableLine._on_move.
    rewrite (inaxes_not_in _ _ Hin), Hidx.
    destruct self as [a [[x0 x1 x2] [y0 y1 y2]] k g d].
    destruct i; [|congruence|]; split; reflexivity.
  - intros self event Hin Hidx. cbv zeta. intros j.
    apply on_move_midpoint_handles; assumption.
  - exact on_move_unchanged.
  - reflexivity.
Qed.

Lemma midpoint_mean_after_mutation_witness :
  let self := fst (DraggableLine._on_move (test_line_grabbed (Some I2))
                     (pointer_at 100.1 100.1)) in
  handle_x self I1 = float64 52.55
  /\ midpoint_is_mean self.
Proof.
  intros self. split; [vm_compute; reflexivity|].
  assert (Hi : I2 <> I1) by discriminate.
  exact (proj1 (proj2 midpoint_mean_after_mutation)
           (test_line_grabbed (Some I2)) (pointer_at 100.1 100.1) I2
           eq_refl eq_refl Hi).
Defined.

(** C2 as stated fails after a midpoint drag.  The test line of the script,
    from (5, 5) to (500, 500) with the midpoint at 252.5, is dragged by its
    midpoint to the data position (100.1, 100.1): the offset is -152.4, the
    handles become -147.4, 100.1 and 347.6, and the mean of the two endpoints
    is 100.10000000000001, which is not the stored midpoint. *)
Lemma midpoint_drag_leaves_the_mean :
  let self := test_line_grabbed (Some I1) in
  let self' := fst (DraggableLine._on_move self (pointer_at 100.1 100.1)) in
  midpoint_is_mean self
  /\ handle_x self' I0 = float64 (-147.4)
  /\ handle_x self' I1 = float64 100.1
  /\ handle_x self' I2 = float64 347.6
  /\ mean (handle_x self' I0) (handle_x self' I2) = float64 100.10000000000001
  /\ (val (handle_x self' I1)
      =? val (mean (handle_x self' I0) (handle_x self' I2))) = false
  /\ ~ midpoint_is_mean self'.
Proof.
  cbv zeta. repeat split; try (vm_compute; reflexivity).
  intros [Hx _].
  apply (f_equal (fun n => val n =? 100.1)) in Hx.
  vm_compute in Hx. discriminate Hx.
Qed.

(** C4, as the code has it.  With the midpoint grabbed, a move inside the
    axes computes the offset d = pointer - midpoint once and replaces each
    of the three handles h by the rounded sum h + d; the midpoint stays
    grabbed, "line-changed" carries the new endpoints, and the new length is
    computed from e0 + d and e1 + d. *)
Theorem midpoint_drag_shifts_handles :
  forall (self : DraggableLine.t) (event : MouseEvent.t),
    DraggableLine._handle_idx self = Some I1 ->
    MouseEvent.inaxes event = Some (DraggableLine.ax self) ->
    let self' := fst (DraggableLine._on_move self event) in
    let dx := sub (float64 (MouseEvent.xdata event)) (handle_x self I1) in
    let dy := sub (float64 (MouseEvent.ydata event)) (handle_y self I1) in
    (forall j : index,
        handle_x self' j = add (handle_x self j) dx
        /\ handle_y self' j = add (handle_y self j) dy)
    /\ DraggableLine._handle_idx self' = Some I1
    /\ snd (DraggableLine._on_move self event)
       = LineChanged (handle_x self' I0, handle_x self' I2)
                     (handle_y self' I0, handle_y self' I2)
           :: (if DraggableLine.drawon self then [DrawIdle] else [])
    /\ (forall pow : libm_pow,
          DraggableLine.get_length pow self'
          = euclidean pow
              ((add (handle_x self I0) dx, add (handle_x self I2) dx),
               (add (handle_y self I0) dy, add (handle_y self I2) dy))).
Proof.
  intros self event Hidx Hin. cbv zeta.
  split; [intros j; apply on_move_midpoint_handles; assumption|].
  unfold DraggableLine._on_move.
  rewrite (inaxes_not_in _ _ Hin), Hidx.
  destruct self as [a [[x0 x1 x2] [y0 y1 y2]] k g d].
  cbn in Hidx. subst k. repeat split.
Qed.

Lemma midpoint_drag_shifts_handles_witness :
  let self := test_line_grabbed (Some I1) in
  let self' := fst (DraggableLine._on_move self (pointer_at 969.4 929.2)) in
  handle_x self' I0 = add (python 5) (sub (float64 969.4) (python 252.5))
  /\ handle_x self' I0 = float64 721.9.
Proof.
  intros self self'.
  split; [|vm_compute; reflexivity].
  exact (proj1 (proj1 (midpoint_drag_shifts_handles self
                         (pointer_at 969.4 929.2) eq_refl eq_refl) I0)).
Defined.

(** C4 as stated fails in binary64.  The test line of the script, from
    (5, 5) to (500, 500), is dragged by its midpoint to (969.4, 929.2): the
    offset in x is 716.9, endpoint 0 goes to 721.9 and endpoint 1 to 1216.9,
    and their difference, which was 495, is 495.0000000000001, so they were
    not translated by the same amount; with a correctly rounded [pow] the
    length goes from 700.035713374682 to 700.0357133746821.  Dragged to
    (0.1, 0.1) instead, the midpoint is stored as 0.09999999999999432, not
    at the pointer. *)
Lemma midpoint_drag_changes_length :
  let self := test_line_grabbed (Some I1) in
  let self' := fst (DraggableLine._on_move self (pointer_at 969.4 929.2)) in
  let self'' := fst (DraggableLine._on_move self (pointer_at 0.1 0.1)) in
  sub (float64 969.4) (handle_x self I1) = float64 716.9
  /\ handle_x self' I0 = float64 721.9
  /\ handle_x self' I2 = float64 1216.9
  /\ sub (handle_x self I2) (handle_x self I0) = python 495
  /\ sub (handle_x self' I2) (handle_x self' I0) = float64 495.0000000000001
  /\ (495.0000000000001 =? 495) = false
  /\ DraggableLine.get_length rounded_pow self
     = Return (python 700.035713374682)
  /\ DraggableLine.get_length rounded_pow self'
     = Return (float64 700.0357133746821)
  /\ (700.0357133746821 =? 700.035713374682) = false
  /\ handle_x self'' I1 = float64 0.09999999999999432
  /\ (0.09999999999999432 =? 0.1) = false.
Proof.
  cbv zeta. repeat split; vm_compute; reflexivity.
Qed.

(** ** The readout *)

Lemma get_length_of_endpoints (pow : libm_pow) (self : DraggableLine.t) :
  DraggableLine.get_length pow self
  = euclidean pow (DraggableLine.get_endpoints self).
Proof. destruct self as [a [x y] k g d]. reflexivity. Qed.

(** [update_test_readout()] computes the test length itself. *)
Lemma update_none pow p :
  update_test_readout pow None p
  = (l <- DraggableLine.get_length pow (test_line p) ;;
     update_test_readout pow (Some l) p).
Proof. reflexivity. Qed.

(** The length that [test_moved] computes from the signal of a line is the
    [get_length] of that line. *)
Lemma test_moved_length pow (l : DraggableLine.t) (p : Program) :
  test_moved pow (fst (DraggableLine.get_endpoints l))
                 (snd (DraggableLine.get_endpoints l)) p
  = (len <- DraggableLine.get_length pow l ;;
     update_test_readout pow (Some len) p).
Proof.
  destruct l as [a [x y] k g d].
  unfold test_moved, DraggableLine.get_length, DraggableLine.get_endpoints.
  cbn [get_data DraggableLine._handles xorig yorig fst snd].
  destruct (square pow (sub (at2 x) (at0 x))); [|reflexivity|reflexivity].
  cbn [bind].
  destruct (square pow (sub (at2 y) (at0 y))); reflexivity.
Qed.

Lemma on_move_signal self event :
  DraggableLine._on_move self event = (self, [])
  \/ snd (DraggableLine._on_move self event)
     = LineChanged
         (fst (DraggableLine.get_endpoints
                 (fst (DraggableLine._on_move self event))))
         (snd (DraggableLine.get_endpoints
                 (fst (DraggableLine._on_move self event))))
         :: (if DraggableLine.drawon self then [DrawIdle] else []).
Proof.
  unfold DraggableLine._on_move.
  destruct (not_in _ _); [left; reflexivity|].
  destruct self as [a [x y] [i|] g d]; simpl; [|left; reflexivity].
  right. destruct (index_eqb i I1); reflexivity.
Qed.

Lemma process_draw_idle pow (b : bool) p :
  process pow (if b then [DrawIdle] else []) p = Return p.
Proof. destruct b; reflexivity. Qed.

Lemma motion_outcome pow event p :
  motion_notify_event pow event p
  = if test_line_changes p event
    then update_test_readout pow None (moved p event)
    else Return (moved p event).
Proof.
  unfold motion_notify_event, moved, test_line_changes.
  destruct (DraggableLine._on_move (ref_line p) event) as [r effects_r].
  cbn [fst test_line with_ref_line].
  destruct (on_move_signal (test_line p) event) as [H | H].
  - rewrite H. reflexivity.
  - destruct (DraggableLine._on_move (test_line p) event) as [t effects_t].
    cbn [fst snd] in *. subst effects_t.
    cbn [process]. rewrite test_moved_length, update_none.
    cbn [test_line with_test_line].
    destruct (DraggableLine.get_length pow t) as [len| |]; cbn [bind];
      try reflexivity.
    destruct (update_test_readout pow (Some len) _) as [p'| |]; cbn [bind];
      try reflexivity.
    apply process_draw_idle.
Qed.

Lemma truediv_divides (n d : number) :
  truediv n d
  = if divides n d
    then Return (Num (val n / val d) (numpy n || numpy d))
    else Raise ZeroDivisionError.
Proof.
  unfold truediv, divides.
  destruct (numpy n), (numpy d), (val d =? 0); reflexivity.
Qed.

Lemma update_recomputed pow q p' :
  update_test_readout pow None q = Return p' <-> recomputed_from pow q p'.
Proof.
  unfold update_test_readout, recomputed_from.
  destruct (DraggableLine.get_length pow (test_line q)) as [lt| |];
    cbn [bind];
    [|split; [discriminate|];
      intros (? & ? & ? & _ & H & _); discriminate H ..].
  destruct (float (ref_text q)) as [L| |]; cbn [bind];
    [|split; [discriminate|];
      intros (? & ? & ? & H & _); discriminate H ..].
  destruct (DraggableLine.get_length pow (ref_line q)) as [lr| |];
    cbn [bind];
    [|split; [discriminate|];
      intros (? & ? & ? & _ & _ & H & _); discriminate H ..].
  rewrite truediv_divides.
  destruct (divides (mul L lt) lr) eqn:Hd; cbn [bind val mul]; split.
  - intros H. injection H as <-. exists L, lt, lr. repeat split. exact Hd.
  - intros (L' & lt' & lr' & HL & Ht & Hr & _ & ->).
    injection HL as <-. injection Ht as <-. injection Hr as <-. reflexivity.
  - discriminate.
  - intros (L' & lt' & lr' & HL & Ht & Hr & Hd' & _).
    injection HL as <-. injection Ht as <-. injection Hr as <-.
    rewrite Hd in Hd'. discriminate Hd'.
Qed.

(** *** Two decimals *)

Lemma digit_of_digit_char (d : Z) :
  (0 <= d < 10)%Z -> digit_of (digit_char d) = Some (Z.to_nat d).
Proof.
  intros H.
  assert (E : d = 0%Z \/ d = 1%Z \/ d = 2%Z \/ d = 3%Z \/ d = 4%Z \/ d = 5%Z
              \/ d = 6%Z \/ d = 7%Z \/ d = 8%Z \/ d = 9%Z) by lia.
  repeat (destruct E as [-> | E]; [reflexivity|]). subst d. reflexivity.
Qed.

Lemma round_half_even_div_nearest (num den : Z) :
  (0 < den)%Z ->
  let n := round_half_even_div num den in
  (2 * Z.abs (n * den - num) <= den)%Z
  /\ ((2 * Z.abs (n * den - num) = den)%Z -> Z.even n = true)
  /\ ((0 <= num)%Z -> (0 <= n)%Z).
Proof.
  intros Hden. cbv zeta. unfold round_half_even_div.
  pose proof (Z.div_mod num den ltac:(lia)) as Hdm.
  pose proof (Z.mod_pos_bound num den Hden) as Hr.
  assert (Hq : (0 <= num -> 0 <= num / den)%Z)
    by (intros; apply Z.div_pos; lia).
  set (q := (num / den)%Z) in *. set (r := (num mod den)%Z) in *.
  replace (den * q)%Z with (q * den)%Z in Hdm by ring.
  destruct (Z.compare_spec (2 * r) den) as [E | E | E].
  - destruct (Z.even q) eqn:Ev.
    + repeat split; [lia | intros _; exact Ev | lia].
    + assert (Ev' : Z.even (q + 1) = true).
      { rewrite Z.add_1_r, Z.even_succ, <- Z.negb_even, Ev. reflexivity. }
      replace ((q + 1) * den)%Z with (q * den + den)%Z by ring.
      repeat split; [lia | intros _; exact Ev' | lia].
  - repeat split; lia.
  - replace ((q + 1) * den)%Z with (q * den + den)%Z by ring.
    repeat split; lia.
Qed.

Lemma hundredths_nearest (m : positive) (e : Z) :
  nearest_hundredths m e (hundredths m e) /\ (0 <= hundredths m e)%Z.
Proof.
  unfold nearest_hundredths, hundredths.
  destruct (0 <=? e)%Z eqn:E.
  - split; [reflexivity|].
    apply Z.leb_le in E. apply Z.mul_nonneg_nonneg; [lia|].
    apply Z.pow_nonneg. lia.
  - apply Z.leb_gt in E.
    assert (Hden : (0 < 2 ^ (- e))%Z) by (apply Z.pow_pos_nonneg; lia).
    destruct (round_half_even_div_nearest (100 * Z.pos m) (2 ^ (- e)) Hden)
      as (H1 & H2 & H3).
    split; [split; assumption|]. apply H3. lia.
Qed.

(** A finite float that is not zero is written as a sign, the digits of the
    integer part, a point and two digits [a] and [b]; read back, they are the
    number of hundredths nearest to the float. *)
Lemma format_2f_finite (v : binary64) (s : bool) (m : positive) (e : Z) :
  FloatOps.Prim2SF v = SpecFloat.S754_finite s m e ->
  exists (n i : Z) (a b : ascii) (da db : nat),
    format_2f v
    = ((if s then "-" else "")
       ++ NilZero.string_of_uint (N.to_uint (Z.to_N i))
       ++ "." ++ String a (String b ""))%string
    /\ digit_of a = Some da
    /\ digit_of b = Some db
    /\ (0 <= i)%Z
    /\ n = (100 * i + 10 * Z.of_nat da + Z.of_nat db)%Z
    /\ nearest_hundredths m e n.
Proof.
  intros H. unfold format_2f. rewrite H.
  destruct (hundredths_nearest m e) as [Hn Hpos].
  set (n := hundredths m e) in *.
  assert (Ha : (0 <= (n mod 100) / 10 < 10)%Z).
  { pose proof (Z.mod_pos_bound n 100 ltac:(lia)).
    split; [apply Z.div_pos; lia | apply Z.div_lt_upper_bound; lia]. }
  assert (Hb : (0 <= n mod 10 < 10)%Z) by (apply Z.mod_pos_bound; lia).
  exists n, (n / 100)%Z, (digit_char ((n mod 100) / 10)),
    (digit_char (n mod 10)), (Z.to_nat ((n mod 100) / 10)),
    (Z.to_nat (n mod 10)).
  split; [reflexivity|].
  split; [apply digit_of_digit_char, Ha|].
  split; [apply digit_of_digit_char, Hb|].
  split; [apply Z.div_pos; lia|].
  split; [|exact Hn].
  rewrite !Z2Nat.id by lia.
  clear. Z.div_mod_to_equations. lia.
Qed.

(** Zero keeps its sign and has its two decimals; an infinity and nan are
    written as words. *)
Lemma format_2f_special (v : binary64) :
  (forall s : bool,
      FloatOps.Prim2SF v = SpecFloat.S754_zero s ->
      format_2f v = if s then "-0.00"%string else "0.00"%string)
  /\ (forall s : bool,
        FloatOps.Prim2SF v = SpecFloat.S754_infinity s ->
        format_2f v = if s then "-inf"%string else "inf"%string)
  /\ (FloatOps.Prim2SF v = SpecFloat.S754_nan -> format_2f v = "nan"%string).
Proof.
  unfold format_2f. repeat split.
  - intros s H. rewrite H. destruct s; reflexivity.
  - intros s H. rewrite H. reflexivity.
  - intros H. rewrite H. reflexivity.
Qed.

(** *** The scenario *)

Lemma scenario_readout (pow : libm_pow) :
  pow 26 2 = 676 -> pow 676 0.5 = 26 ->
  pow 13 2 = 169 -> pow 169 0.5 = 13 ->
  DraggableLine.get_length pow (ref_line scenario) = Return (python 26)
  /\ DraggableLine.get_length pow (test_line scenario) = Return (python 13)
  /\ update_test_readout pow None scenario
     = Return (set_val scenario "13.00").
Proof.
  intros H1 H2 H3 H4.
  assert (Hr : DraggableLine.get_length pow (ref_line scenario)
               = Return (python 26)).
  { cbv. rewrite H1. cbv. rewrite H2. reflexivity. }
  assert (Ht : DraggableLine.get_length pow (test_line scenario)
               = Return (python 13)).
  { cbv. rewrite H3. cbv. rewrite H4. reflexivity. }
  split; [exact Hr|]. split; [exact Ht|].
  unfold update_test_readout. rewrite Ht, Hr. vm_compute. reflexivity.
Qed.



(** What the readout shows where rounding, overflow and the sign of zero
    matter, with a correctly rounded [pow]: the text 2.675 against two equal
    lines, 0.875 on the diagonal of the unit square against itself, and
    1e308 and -0 in the scenario. *)
Example readout_samples :
  let same := with_test_line scenario (ref_line scenario) in
  let diagonal :=
    DraggableLine.__init__ ax (python 0, python 1) (python 0, python 1) 10 in
  let unit := with_test_line (with_ref_line scenario diagonal) diagonal in
  ref_text_change rounded_pow "2.675" same
  = Return (set_val (with_ref_text same "2.675") "2.67")
  /\ ref_text_change rounded_pow "0.875" unit
     = Return (set_val (with_ref_text unit "0.875") "0.87")
  /\ ref_text_change rounded_pow "1e308" scenario
     = Return (set_val (with_ref_text scenario "1e308") "inf")
  /\ ref_text_change rounded_pow "-0" scenario
     = Return (set_val (with_ref_text scenario "-0") "-0.00")
  /\ ref_text_change rounded_pow "twenty" scenario = Raise ValueError.
Proof. cbv zeta. repeat split; vm_compute; reflexivity. Qed.

(** Lengths at the limits of the format, with a correctly rounded [pow]:
    endpoints 1e-200 apart have length 0.0; Python floats 1e200 apart raise
    [OverflowError] where NumPy scalars give an infinity; a divisor 0.0
    raises between Python floats only. *)
Example get_length_limits :
  let line (k : binary64 -> number) (d : binary64) :=
    DraggableLine.__init__ ax (k 0, k d) (k 0, k 0) 10 in
  DraggableLine.get_length rounded_pow (line python 1e-200)
  = Return (python 0)
  /\ DraggableLine.get_length rounded_pow (line python 1e200)
     = Raise OverflowError
  /\ DraggableLine.get_length rounded_pow (line float64 1e200)
     = Return (float64 infinity)
  /\ truediv (python 13) (python 0) = Raise ZeroDivisionError
  /\ truediv (python 13) (float64 0) = Return (float64 infinity).
Proof. cbv zeta. repeat split; vm_compute; reflexivity. Qed.

(** ** Lengths of dragged lines *)

Lemma power_numpy pow (a : number) iw integral :
  numpy a = true -> power pow a iw integral = Return (float64 (pow (val a) iw)).
Proof. unfold power. intros ->. reflexivity. Qed.

Lemma get_length_numpy pow (self : DraggableLine.t) :
  numpy (sub (handle_x self I2) (handle_x self I0)) = true ->
  numpy (sub (handle_y self I2) (handle_y self I0)) = true ->
  exists l : binary64,
    DraggableLine.get_length pow self = Return (float64 l).
Proof.
  destruct self as [a [[x0 x1 x2] [y0 y1 y2]] k g d].
  unfold handle_x, handle_y, DraggableLine.get_length, square, root.
  cbn [DraggableLine._handles xorig yorig get get_data at0 at2].
  intros Hx Hy. rewrite !power_numpy by assumption. cbn [bind].
  rewrite power_numpy by reflexivity. eexists. reflexivity.
Qed.

(** X17. The length of a line that was just dragged is always computed:
    a move inside the axes with a handle grabbed stores a NumPy scalar in
    each coordinate list, so both differences of [get_length] are NumPy
    scalars, and NumPy's [**] returns where Python's raises
    [OverflowError]; the result is a NumPy scalar. *)
Theorem dragged_line_length_returns :
  forall (pow : libm_pow) (self : DraggableLine.t) (event : MouseEvent.t)
         (i : index),
    MouseEvent.inaxes event = Some (DraggableLine.ax self) ->
    DraggableLine._handle_idx self = Some i ->
    exists l : binary64,
      DraggableLine.get_length pow (fst (DraggableLine._on_move self event))
      = Return (float64 l).
Proof.
  intros pow self event i Hin Hidx.
  apply get_length_numpy;
    unfold DraggableLine._on_move;
    rewrite (inaxes_not_in _ _ Hin), Hidx;
    destruct self as [a [[x0 x1 x2] [y0 y1 y2]] k g d];
    destruct i; cbn; rewrite ?orb_true_r; reflexivity.
Qed.

Lemma dragged_line_length_returns_witness :
  let far := pointer_at 1e200 5 in
  DraggableLine.get_length rounded_pow
    (DraggableLine.__init__ ax (python 5, python 1e200) (python 5, python 5)
                            10)
  = Raise OverflowError
  /\ exists l : binary64,
       DraggableLine.get_length rounded_pow
         (fst (DraggableLine._on_move (test_line_grabbed (Some I2)) far))
       = Return (float64 l).
Proof.
  intros far. split; [vm_compute; reflexivity|].
  exact (dragged_line_length_returns rounded_pow (test_line_grabbed (Some I2))
           far I2 eq_refl eq_refl).
Defined.

End Binary64Properties.

(** * Further properties of the widget *)

(** ** Lengths and endpoints *)

Lemma length_distance (self : DraggableLine.t) :
  length self = distance (handle_point self I0) (handle_point self I2).
Proof. apply length_points. Qed.

(** ** What the handlers leave alone *)

Lemma on_move_frame self event :
  let self' := fst (DraggableLine._on_move self event) in
  DraggableLine.ax self' = DraggableLine.ax self
  /\ DraggableLine._handle_idx self' = DraggableLine._handle_idx self
  /\ DraggableLine._grab_range self' = DraggableLine._grab_range self
  /\ DraggableLine.drawon self' = DraggableLine.drawon self.
Proof.
  unfold DraggableLine._on_move.
  destruct (not_in _ _); [repeat split|].
  destruct self as [a [x y] [i|] g d]; simpl; [|repeat split].
  destruct (index_eqb i I1); repeat split.
Qed.

Lemma on_press_frame self canvas event :
  let self' := DraggableLine._on_press self canvas event in
  DraggableLine.ax self' = DraggableLine.ax self
  /\ DraggableLine._grab_range self' = DraggableLine._grab_range self
  /\ DraggableLine.drawon self' = DraggableLine.drawon self.
Proof.
  unfold DraggableLine._on_press.
  destruct (not_in _ _); [repeat split|].
  destruct (negb _); [repeat split|].
  destruct (Rltb _ _); repeat split.
Qed.

Lemma step_frame self e :
  let self' := fst (step self e) in
  DraggableLine.ax self' = DraggableLine.ax self
  /\ DraggableLine._grab_range self' = DraggableLine._grab_range self
  /\ DraggableLine.drawon self' = DraggableLine.drawon self.
Proof.
  destruct e as [canvas event | event | event]; cbn [step fst].
  - apply on_press_frame.
  - destruct (on_move_frame self event) as (Ha & _ & Hg & Hd). auto.
  - repeat split.
Qed.

Lemma run_cons self e es :
  run self (e :: es)
  = (fst (run (fst (step self e)) es),
     snd (step self e) ++ snd (run (fst (step self e)) es)).
Proof.
  cbn [run]. destruct (step self e) as [self' out]. cbn [fst snd].
  destruct (run self' es) as [self'' out']. reflexivity.
Qed.

(** X2. No run of events changes the axes a line is attached to, its grab
    range or its [drawon] flag; and moves alone never change which handle is
    grabbed. *)
Theorem handlers_keep_configuration :
  forall (self : DraggableLine.t),
    (forall es : list line_event,
        let self' := fst (run self es) in
        DraggableLine.ax self' = DraggableLine.ax self
        /\ DraggableLine._grab_range self' = DraggableLine._grab_range self
        /\ DraggableLine.drawon self' = DraggableLine.drawon self)
    /\ (forall moves : list MouseEvent.t,
           DraggableLine._handle_idx (fst (run self (map Move moves)))
           = DraggableLine._handle_idx self).
Proof.
  intros self. split.
  - intros es. revert self.
    induction es as [|e es IH]; intros self; [repeat split|].
    cbv zeta in *. rewrite run_cons. cbn [fst].
    destruct (IH (fst (step self e))) as (Ha & Hg & Hd).
    destruct (step_frame self e) as (Ha' & Hg' & Hd').
    repeat split; congruence.
  - intros moves. revert self.
    induction moves as [|m ms IH]; intros self; [reflexivity|].
    cbn [map]. rewrite run_cons. cbn [fst step].
    rewrite IH. apply on_move_frame.
Qed.

(** ** Signals *)

Lemma signals_app out out' : signals (out ++ out') = signals out ++ signals out'.
Proof.
  induction out as [|[x y|] out IH]; simpl; [reflexivity| |exact IH].
  rewrite IH. reflexivity.
Qed.

Lemma last_signal_app out out' :
  last_signal (out ++ out')
  = match last_signal out' with
    | Some s => Some s
    | None => last_signal out
    end.
Proof.
  induction out as [|[x y|] out IH]; simpl.
  - destruct (last_signal out'); reflexivity.
  - rewrite IH. destruct (last_signal out'); reflexivity.
  - exact IH.
Qed.

(** A handler either changes no handle and sends nothing, or sends exactly
    one signal, which carries the endpoints it has just stored. *)
Lemma step_signals self e :
  (DraggableLine._handles (fst (step self e)) = DraggableLine._handles self
   /\ signals (snd (step self e)) = [])
  \/ signals (snd (step self e))
     = [DraggableLine.get_endpoints (fst (step self e))].
Proof.
  destruct e as [canvas event | event | event]; cbn [step fst snd].
  - left. split; [apply on_press_handles | reflexivity].
  - destruct (on_move_effects self event) as [H | H].
    + left. rewrite H. split; reflexivity.
    + right. rewrite H. cbn [signals].
      destruct (DraggableLine.get_endpoints _) as [x y]. cbn [fst snd].
      destruct (DraggableLine.drawon self); reflexivity.
  - left. split; reflexivity.
Qed.

(** X3. The handle data never changes silently: a run of events that sends
    no "line-changed" leaves all three handles where they were. *)
Theorem silent_run_changes_nothing :
  forall (self : DraggableLine.t) (es : list line_event),
    signals (snd (run self es)) = [] ->
    DraggableLine._handles (fst (run self es)) = DraggableLine._handles self.
Proof.
  intros self es. revert self.
  induction es as [|e es IH]; intros self; [reflexivity|].
  rewrite run_cons. cbn [fst snd]. rewrite signals_app.
  intros H. apply app_eq_nil in H. destruct H as [H1 H2].
  rewrite (IH _ H2).
  destruct (step_signals self e) as [[Hh _] | Hs]; [exact Hh|].
  rewrite Hs in H1. discriminate.
Qed.

Lemma silent_run_changes_nothing_witness :
  DraggableLine._handles
    (fst (run (short_line None)
              [Press (plain_canvas true) (MouseEvent.mk (Some ax) 4 0 4 0);
               Move (MouseEvent.mk None 900 900 0 0);
               Release (MouseEvent.mk None 900 900 0 0)]))
  = DraggableLine._handles (short_line None).
Proof.
  apply silent_run_changes_nothing.
  rewrite !run_cons. cbn [snd step app run signals].
  reflexivity.
Defined.

Lemma get_endpoints_handles l l' :
  DraggableLine._handles l = DraggableLine._handles l' ->
  DraggableLine.get_endpoints l = DraggableLine.get_endpoints l'.
Proof.
  destruct l as [a h i g d], l' as [a' h' i' g' d']; simpl.
  intros ->. reflexivity.
Qed.

Lemma run_last_signal es : forall self,
  match last_signal (snd (run self es)) with
  | Some s => DraggableLine.get_endpoints (fst (run self es)) = s
  | None => DraggableLine._handles (fst (run self es))
            = DraggableLine._handles self
  end.
Proof.
  induction es as [|e es IH]; intros self; [reflexivity|].
  rewrite run_cons. cbn [fst snd]. rewrite last_signal_app.
  specialize (IH (fst (step self e))).
  destruct (last_signal (snd (run (fst (step self e)) es))) as [s|];
    [exact IH|].
  destruct (step_signals self e) as [[Hh Hs] | Hs].
  - assert (Hn : last_signal (snd (step self e)) = None).
    { destruct e as [canvas event | event | event]; try reflexivity.
      cbn [step snd] in *.
      destruct (on_move_effects self event) as [H | H];
        rewrite H in *; [reflexivity | discriminate Hs]. }
    rewrite Hn. congruence.
  - assert (Hl : last_signal (snd (step self e))
                 = Some (DraggableLine.get_endpoints (fst (step self e)))).
    { destruct e as [canvas event | event | event]; try discriminate Hs.
      cbn [step fst snd] in *.
      destruct (on_move_effects self event) as [H | H];
        rewrite H in *; [discriminate Hs|].
      cbn [last_signal].
      destruct (DraggableLine.get_endpoints _) as [x y]. cbn [fst snd].
      destruct (DraggableLine.drawon self); reflexivity. }
    rewrite Hl. apply get_endpoints_handles, IH.
Qed.

(** X4. An observer that keeps the arguments of the last "line-changed" it
    received knows the endpoints of the line: after any run of events that
    sent a signal, the last signal carries what [get_endpoints] returns. *)
Theorem last_signal_is_current :
  forall (self : DraggableLine.t) (es : list line_event)
         (x y : number * number),
    last_signal (snd (run self es)) = Some (x, y) ->
    DraggableLine.get_endpoints (fst (run self es)) = (x, y).
Proof.
  intros self es x y H.
  pose proof (run_last_signal es self) as Hr.
  rewrite H in Hr. exact Hr.
Qed.

Lemma last_signal_is_current_witness :
  DraggableLine.get_endpoints
    (fst (run (short_line (Some I2))
              [Move (MouseEvent.mk (Some ax) 0 0 6 8);
               Release (MouseEvent.mk (Some ax) 0 0 6 8);
               Press (plain_canvas false) (MouseEvent.mk (Some ax) 0 0 0 0)]))
  = ((python 0, float64 6), (python 0, float64 8)).
Proof.
  apply last_signal_is_current. reflexivity.
Defined.

(** ** Drags *)

Lemma on_move_last_wins self e1 e2 i :
  DraggableLine._handle_idx self = Some i ->
  i <> I1 ->
  not_in (DraggableLine.ax self) e1 = false ->
  not_in (DraggableLine.ax self) e2 = false ->
  DraggableLine._on_move (fst (DraggableLine._on_move self e1)) e2
  = DraggableLine._on_move self e2.
Proof.
  intros Hidx Hi H1 H2.
  destruct self as [a [[x0 x1 x2] [y0 y1 y2]] k g d].
  cbn [DraggableLine.ax DraggableLine._handle_idx] in *. subst k.
  unfold DraggableLine._on_move. cbn [DraggableLine.ax]. rewrite H1.
  destruct i; [|congruence|]; cbn; rewrite H2; reflexivity.
Qed.

Lemma on_move_outside self event :
  not_in (DraggableLine.ax self) event = true ->
  DraggableLine._on_move self event = (self, []).
Proof. intros H. unfold DraggableLine._on_move. rewrite H. reflexivity. Qed.

Lemma last_inside_inside a ms m :
  last_inside a ms = Some m -> not_in a m = false.
Proof.
  induction ms as [|m0 ms IH]; [discriminate|]. cbn [last_inside].
  destruct (last_inside a ms) as [m'|].
  - intros H. injection H as <-. apply IH. reflexivity.
  - destruct (not_in a m0) eqn:E; [discriminate|].
    intros H. injection H as <-. exact E.
Qed.

(** Moves with an endpoint grabbed: the line ends where the last move over
    the axes put it, whatever came before. *)
Lemma run_moves ms : forall self i,
  DraggableLine._handle_idx self = Some i ->
  i <> I1 ->
  fst (run self (map Move ms))
  = match last_inside (DraggableLine.ax self) ms with
    | Some m => fst (DraggableLine._on_move self m)
    | None => self
    end.
Proof.
  induction ms as [|m ms IH]; intros self i Hidx Hi; [reflexivity|].
  cbn [map last_inside]. rewrite run_cons. cbn [fst step].
  destruct (on_move_frame self m) as (Ha & Hi' & _).
  rewrite (IH _ i) by (try rewrite Hi'; assumption). rewrite Ha.
  destruct (last_inside (DraggableLine.ax self) ms) as [m'|] eqn:El.
  - apply last_inside_inside in El.
    destruct (not_in (DraggableLine.ax self) m) eqn:Em.
    + rewrite (on_move_outside self m Em). reflexivity.
    + rewrite (on_move_last_wins self m m' i) by assumption. reflexivity.
  - destruct (not_in (DraggableLine.ax self) m) eqn:Em;
      [rewrite (on_move_outside self m Em)|]; reflexivity.
Qed.

Lemma run_app es es' : forall self,
  fst (run self (es ++ es')) = fst (run (fst (run self es)) es').
Proof.
  induction es as [|e es IH]; intros self; [reflexivity|].
  cbn [app]. rewrite !run_cons. cbn [fst]. apply IH.
Qed.

Lemma last_inside_app a ms m :
  not_in a m = false -> last_inside a (ms ++ [m]) = Some m.
Proof.
  intros H. induction ms as [|m0 ms IH]; cbn [app last_inside].
  - rewrite H. reflexivity.
  - rewrite IH. reflexivity.
Qed.

(** X5. A drag of an endpoint ends where its last move over the axes put
    it: with an endpoint grabbed, any run of moves followed by a release
    leaves the handles as that single move would, whatever moves came before
    it or outside the axes, and leaves them untouched when no move was over
    the axes; nothing is grabbed afterwards. *)
Theorem drag_ends_at_last_move :
  forall (self : DraggableLine.t) (i : index) (moves : list MouseEvent.t)
         (release : MouseEvent.t),
    DraggableLine._handle_idx self = Some i ->
    i <> I1 ->
    let final := fst (run self (map Move moves ++ [Release release])) in
    DraggableLine._handle_idx final = None
    /\ DraggableLine._handles final
       = match last_inside (DraggableLine.ax self) moves with
         | Some m => DraggableLine._handles
                       (fst (DraggableLine._on_move self m))
         | None => DraggableLine._handles self
         end.
Proof.
  intros self i moves release Hidx Hi. cbv zeta.
  rewrite run_app, (run_moves moves self i Hidx Hi).
  split; [reflexivity|]. cbn [run step fst].
  destruct (last_inside _ _); reflexivity.
Qed.

Lemma drag_ends_at_last_move_witness :
  handle_point
    (fst (run (short_line (Some I2))
              (map Move [MouseEvent.mk (Some ax) 0 0 1 1;
                         MouseEvent.mk (Some ax) 0 0 6 8;
                         MouseEvent.mk None 0 0 50 50]
               ++ [Release (MouseEvent.mk None 0 0 50 50)])))
    I2
  = (6, 8).
Proof.
  assert (Hi : I2 <> I1) by discriminate.
  unfold handle_point.
  rewrite (proj2 (drag_ends_at_last_move (short_line (Some I2)) I2
                    [MouseEvent.mk (Some ax) 0 0 1 1;
                     MouseEvent.mk (Some ax) 0 0 6 8;
                     MouseEvent.mk None 0 0 50 50]
                    (MouseEvent.mk None 0 0 50 50) eq_refl Hi)).
  reflexivity.
Defined.

Lemma on_move_back self event i :
  DraggableLine._handle_idx self = Some i ->
  i <> I1 ->
  midpoint_is_mean self ->
  not_in (DraggableLine.ax self) event = false ->
  pointer event = handle_point self i ->
  forall j, handle_point (fst (DraggableLine._on_move self event)) j
            = handle_point self j.
Proof.
  intros Hidx Hi Hmid Hin Hp j.
  unfold DraggableLine._on_move. rewrite Hin, Hidx.
  destruct self as [a [[x0 x1 x2] [y0 y1 y2]] k g d].
  unfold midpoint_is_mean, handle_point, mean, pointer in *.
  cbn [DraggableLine._handles xorig yorig get at0 at1 at2 fst snd] in *.
  injection Hmid as Hx Hy.
  destruct i; [|congruence|];
    cbn [get at0 at1 at2] in Hp; injection Hp as Hpx Hpy;
    destruct j; cbn; rewrite ?Hpx, ?Hpy, ?Hx, ?Hy; reflexivity.
Qed.

(** X6. Dragging an endpoint away and back restores the line.  With an
    endpoint grabbed on a line whose stored midpoint is [(x0 + x2) / 2] (as
    it is after [__init__] and after every drag of an endpoint), any moves
    followed by a move over the axes to the position the grabbed endpoint
    started from put all three handles back to their values: the endpoint is
    stored as given and the midpoint is computed by the same formula from
    the same two endpoints. *)
Theorem drag_back_restores :
  forall (self : DraggableLine.t) (i : index)
         (moves : list MouseEvent.t) (back : MouseEvent.t),
    DraggableLine._handle_idx self = Some i ->
    i <> I1 ->
    midpoint_is_mean self ->
    MouseEvent.inaxes back = Some (DraggableLine.ax self) ->
    pointer back = handle_point self i ->
    let self' := fst (run self (map Move (moves ++ [back]))) in
    forall j, handle_point self' j = handle_point self j.
Proof.
  intros self i moves back Hidx Hi Hmid Hin Hp. cbv zeta.
  apply not_in_false in Hin.
  rewrite (run_moves _ self i Hidx Hi), (last_inside_app _ moves back Hin).
  exact (on_move_back self back i Hidx Hi Hmid Hin Hp).
Qed.

Lemma drag_back_restores_witness :
  let self := short_line (Some I0) in
  let self' := fst (run self (map Move ([MouseEvent.mk (Some ax) 0 0 7 9]
                                        ++ [MouseEvent.mk (Some ax) 0 0 0 0])))
  in
  handle_point self' I1 = handle_point self I1.
Proof.
  intros self self'.
  assert (Hi : I0 <> I1) by discriminate.
  assert (Hp : pointer (MouseEvent.mk (Some ax) 0 0 0 0)
               = handle_point self I0) by reflexivity.
  exact (drag_back_restores self I0 [MouseEvent.mk (Some ax) 0 0 7 9]
           (MouseEvent.mk (Some ax) 0 0 0 0)
           eq_refl Hi (eq_refl : midpoint_is_mean self) eq_refl Hp I1).
Defined.

Lemma distance_sym p q : distance p q = distance q p.
Proof.
  unfold distance. f_equal. unfold Rsqr; ring.
Qed.

(** X7. After an endpoint has been dragged, the length of the line is the
    Euclidean distance between the pointer's data position and the other
    endpoint. *)
Theorem endpoint_drag_length :
  forall (self : DraggableLine.t) (event : MouseEvent.t) (i : index),
    DraggableLine._handle_idx self = Some i ->
    i <> I1 ->
    MouseEvent.inaxes event = Some (DraggableLine.ax self) ->
    val (DraggableLine.get_length (fst (DraggableLine._on_move self event)))
    = distance (pointer event) (handle_point self (other i)).
Proof.
  intros self event i Hidx Hi Hin.
  rewrite get_length_euclidean, length_distance.
  unfold DraggableLine._on_move.
  apply not_in_false in Hin. rewrite Hin, Hidx.
  destruct self as [a [[x0 x1 x2] [y0 y1 y2]] k g d].
  destruct i; [|congruence|]; cbn; [reflexivity|].
  apply distance_sym.
Qed.

Lemma endpoint_drag_length_witness :
  val (DraggableLine.get_length
         (fst (DraggableLine._on_move (short_line (Some I2))
                 (MouseEvent.mk (Some ax) 0 0 3 4))))
  = distance (3, 4) (0, 0).
Proof.
  assert (Hi : I2 <> I1) by discriminate.
  exact (endpoint_drag_length (short_line (Some I2))
           (MouseEvent.mk (Some ax) 0 0 3 4) I2 eq_refl Hi eq_refl).
Defined.

(** ** The grab range *)

Lemma pixel_distance_nonneg self canvas event i :
  0 <= pixel_distance self canvas event i.
Proof. apply sqrt_pos. Qed.

Lemma pixel_distance_grab_range self r canvas event i :
  pixel_distance (DraggableLine.set_grab_range self r) canvas event i
  = pixel_distance self canvas event i.
Proof. reflexivity. Qed.

Lemma nearest_grab_range self r canvas event :
  nearest (DraggableLine.set_grab_range self r) canvas event
  = nearest self canvas event.
Proof. reflexivity. Qed.

Lemma on_press_cases self canvas event :
  (~ processed self canvas event
   /\ DraggableLine._on_press self canvas event = self)
  \/ (processed self canvas event
      /\ DraggableLine._on_press self canvas event
         = DraggableLine.with_handle_idx self
             (if Rltb (pixel_distance self canvas event
                         (nearest self canvas event))
                      (DraggableLine._grab_range self)
              then Some (nearest self canvas event) else None)).
Proof.
  destruct (not_in (DraggableLine.ax self) event) eqn:Ein.
  - left. split.
    + intros [Hin _]. apply not_in_false in Hin. congruence.
    + unfold DraggableLine._on_press. rewrite Ein. reflexivity.
  - destruct (widgetlock_available canvas) eqn:El.
    + right. apply not_in_false in Ein.
      split; [split; assumption|].
      apply on_press_processed. split; assumption.
    + left. split; [intros [_ Hl]; congruence | apply on_press_blocked, El].
Qed.

(** X8. A grab range of zero or less switches grabbing off: after
    [grab_range] was set to such a value no press grabs a handle (a handle is
    grabbed after a press only if it was grabbed before and the press was
    stopped by a guard), and every processed press clears the grab. *)
Theorem nonpositive_grab_range_never_grabs :
  forall (self : DraggableLine.t) (r : R) (canvas : Canvas)
         (event : MouseEvent.t),
    r <= 0 ->
    let self' := DraggableLine._on_press
                   (DraggableLine.set_grab_range self r) canvas event in
    (forall j, DraggableLine._handle_idx self' = Some j ->
               DraggableLine._handle_idx self = Some j)
    /\ (processed self canvas event ->
        DraggableLine._handle_idx self' = None).
Proof.
  intros self r canvas event Hr. cbv zeta.
  assert (E : Rltb (pixel_distance (DraggableLine.set_grab_range self r)
                      canvas event
                      (nearest (DraggableLine.set_grab_range self r)
                               canvas event))
                   (DraggableLine._grab_range
                      (DraggableLine.set_grab_range self r)) = false).
  { apply Rltb_false. cbn [DraggableLine.set_grab_range
                             DraggableLine._grab_range].
    pose proof (pixel_distance_nonneg
                  (DraggableLine.set_grab_range self r) canvas event
                  (nearest (DraggableLine.set_grab_range self r)
                           canvas event)). lra. }
  split.
  - intros j.
    destruct (on_press_cases (DraggableLine.set_grab_range self r)
                canvas event) as [[_ H] | [_ H]]; rewrite H.
    + intros Hj. exact Hj.
    + rewrite E. discriminate.
  - intros Hp.
    rewrite (on_press_processed (DraggableLine.set_grab_range self r)
               canvas event Hp), E.
    reflexivity.
Qed.

Lemma nonpositive_grab_range_never_grabs_witness :
  DraggableLine._handle_idx
    (DraggableLine._on_press
       (DraggableLine.set_grab_range (short_line (Some I1)) 0)
       (plain_canvas true) (MouseEvent.mk (Some ax) 0 0 0 0))
  = None.
Proof.
  assert (H0 : 0 <= 0) by lra.
  exact (proj2 (nonpositive_grab_range_never_grabs (short_line (Some I1)) 0
                  (plain_canvas true) (MouseEvent.mk (Some ax) 0 0 0 0) H0)
               (conj eq_refl eq_refl)).
Defined.

(** X9. Widening the grab range never changes which handle a press picks: a
    handle that is grabbed after a press with grab range [r] is grabbed after
    the same press with any larger grab range. *)
Theorem wider_grab_range_same_handle :
  forall (self : DraggableLine.t) (r r' : R) (canvas : Canvas)
         (event : MouseEvent.t) (i : index),
    r <= r' ->
    DraggableLine._handle_idx
      (DraggableLine._on_press (DraggableLine.set_grab_range self r)
                               canvas event) = Some i ->
    DraggableLine._handle_idx
      (DraggableLine._on_press (DraggableLine.set_grab_range self r')
                               canvas event) = Some i.
Proof.
  intros self r r' canvas event i Hr.
  destruct (on_press_cases (DraggableLine.set_grab_range self r)
              canvas event) as [[Hn H] | [Hp H]]; rewrite H.
  - destruct (on_press_cases (DraggableLine.set_grab_range self r')
                canvas event) as [[_ H'] | [Hp' _]]; [|contradiction].
    rewrite H'. intros Hi. exact Hi.
  - rewrite (on_press_processed (DraggableLine.set_grab_range self r')
               canvas event Hp).
    rewrite !pixel_distance_grab_range, !nearest_grab_range.
    cbn [DraggableLine.set_grab_range DraggableLine._grab_range
         DraggableLine.with_handle_idx DraggableLine._handle_idx].
    destruct (Rltb _ r) eqn:E; [|discriminate].
    apply Rltb_true in E.
    assert (E' : Rltb (pixel_distance self canvas event
                         (nearest self canvas event)) r' = true)
      by (apply Rltb_true; lra).
    rewrite E'. intros Hi. exact Hi.
Qed.

Lemma wider_grab_range_same_handle_witness :
  DraggableLine._handle_idx
    (DraggableLine._on_press
       (DraggableLine.set_grab_range (short_line None) 10)
       (plain_canvas true) (MouseEvent.mk (Some ax) 4 0 4 0))
  = Some I2.
Proof.
  assert (Hr : 1 <= 10) by lra.
  apply (wider_grab_range_same_handle (short_line None) 1 10
           (plain_canvas true) (MouseEvent.mk (Some ax) 4 0 4 0) I2 Hr).
  rewrite (press_on (DraggableLine.set_grab_range (short_line None) 1)
             (plain_canvas true) (MouseEvent.mk (Some ax) 4 0 4 0) I2).
  - reflexivity.
  - split; reflexivity.
  - rewrite pixel_distance_grab_range. distances.
  - simpl. lra.
  - intros j Hj. rewrite pixel_distance_grab_range.
    destruct j; simpl in Hj; try lia; distances.
Defined.

(** ** Handles that coincide *)

Lemma pixel_distance_point self canvas event i :
  pixel_distance self canvas event i
  = distance (MouseEvent.x event, MouseEvent.y event)
             (pixel_point self canvas i).
Proof. reflexivity. Qed.

Lemma press_not_shadowed self canvas event i j :
  (index_nat i < index_nat j)%nat ->
  pixel_point self canvas i = pixel_point self canvas j ->
  processed self canvas event ->
  DraggableLine._handle_idx (DraggableLine._on_press self canvas event)
  <> Some j.
Proof.
  intros Hij Hpt Hp.
  rewrite (on_press_processed self canvas event Hp).
  destruct (Rltb _ _); [|discriminate].
  cbn [DraggableLine.with_handle_idx DraggableLine._handle_idx].
  intros Hj. injection Hj as Hj.
  pose proof (nearest_first self canvas event i) as Hf.
  rewrite Hj in Hf.
  rewrite !pixel_distance_point, Hpt in Hf.
  specialize (Hf eq_refl). lia.
Qed.

(** X10. When two handles are at the same place on the screen, a processed
    press never grabs the one with the larger index: the midpoint hides
    endpoint 1, and endpoint 0 hides both. *)
Theorem press_never_grabs_hidden_handle :
  forall (self : DraggableLine.t) (canvas : Canvas) (event : MouseEvent.t)
         (i j : index),
    (index_nat i < index_nat j)%nat ->
    pixel_point self canvas i = pixel_point self canvas j ->
    processed self canvas event ->
    DraggableLine._handle_idx (DraggableLine._on_press self canvas event)
    <> Some j.
Proof. exact press_not_shadowed. Qed.

Lemma press_never_grabs_hidden_handle_witness :
  let self := DraggableLine.__init__ ax (python 3, python 3)
                                        (python 5, python 5) 10 in
  DraggableLine._handle_idx
    (DraggableLine._on_press self (plain_canvas true)
                             (MouseEvent.mk (Some ax) 3 5 3 5))
  <> Some I2.
Proof.
  intros self.
  assert (Hij : (index_nat I0 < index_nat I2)%nat) by (simpl; lia).
  exact (press_never_grabs_hidden_handle self (plain_canvas true)
           (MouseEvent.mk (Some ax) 3 5 3 5) I0 I2 Hij eq_refl
           (conj eq_refl eq_refl)).
Defined.

(** * Further properties of the script *)

(** X13. A recomputation writes the readout and nothing else, and repeating
    it changes nothing: when [update_test_readout] returns, both lines and
    the reference text are as before, and a second call returns the same
    state. *)
Theorem update_writes_only_the_readout :
  forall (test_length : option number) (p p' : Program),
    update_test_readout test_length p = Return p' ->
    ref_line p' = ref_line p
    /\ test_line p' = test_line p
    /\ ref_text p' = ref_text p
    /\ update_test_readout test_length p' = Return p'.
Proof.
  intros test_length p p'. unfold update_test_readout.
  destruct (float (ref_text p)) as [f|e] eqn:Ef; [|discriminate].
  destruct (truediv _ _ _) as [v|e] eqn:Ed; [|discriminate].
  intros H. injection H as <-.
  cbn [ref_line test_line ref_text set_val].
  rewrite Ef, Ed. repeat split.
Qed.

Lemma update_writes_only_the_readout_witness :
  update_test_readout None (set_val scenario "13.00")
  = Return (set_val scenario "13.00").
Proof.
  assert (H : update_test_readout None scenario
              = Return (set_val scenario "13.00")).
  { rewrite (update_finite None scenario 26 float_26)
      by (unfold scenario; cbn [ref_line]; rewrite length_vertical; lra).
    cbn [used_test_length]. rewrite get_length_euclidean.
    unfold scenario at 2 3. cbn [ref_line test_line].
    rewrite !length_vertical by lra.
    rewrite (format_2f_hundredths (26 * 13 / 26) 1300) by lra.
    reflexivity. }
  exact (proj2 (proj2 (proj2
           (update_writes_only_the_readout None scenario
              (set_val scenario "13.00") H)))).
Defined.

Lemma play_invariant es : reference_untouched_or_numpy (play es).
Proof.
  unfold play.
  assert (H0 : reference_untouched_or_numpy initial) by (left; reflexivity).
  revert H0. generalize initial.
  induction es as [|e es IH]; intros p Hp; simpl; [exact Hp|].
  apply IH, handle_invariant, Hp.
Qed.

Lemma update_value_error test_length p :
  update_test_readout test_length p = Raise ValueError ->
  float (ref_text p) = Raise ValueError.
Proof.
  intros Hr. pose proof (update_cases test_length p) as H.
  destruct (float (ref_text p)) as [f|e] eqn:Ef.
  - destruct (Reqb _ _).
    + destruct (python_operands test_length p); [congruence|].
      destruct H as (s & _ & H). congruence.
    + destruct H as (s & H). congruence.
  - rewrite (float_raises _ _ Ef). reflexivity.
Qed.

(** X14. Whatever the user does from the start of the script, the only
    exception it ever reports is [ValueError], and only from a recomputation
    while the text of the reference box does not parse; [ZeroDivisionError]
    is never raised, because a reference line that was never moved has its
    initial non-zero length and a moved one has NumPy coordinates. *)
Theorem script_reports_only_unparsable_text :
  forall (es : list gui_event) (e : gui_event) (x : exn),
    snd (handle (play es) e) = Some x ->
    x = ValueError
    /\ recomputes (play es) e = true
    /\ float (ref_text (fst (handle (play es) e))) = Raise ValueError.
Proof.
  intros es e x.
  pose proof (after_widgets_invariant (play es) e (play_invariant es)) as Ha.
  rewrite (handle_outcome (play es) e).
  destruct (recomputes (play es) e); [|discriminate].
  pose proof (update_never_divides_by_zero None _ Ha) as Hn.
  destruct (update_test_readout None (after_widgets (play es) e))
    as [q|x'] eqn:Eu; cbn [report fst snd]; [discriminate|].
  intros H. injection H as <-.
  assert (Hx : x' = ValueError) by (destruct x'; congruence).
  subst x'. repeat split. apply (update_value_error None), Eu.
Qed.

Lemma script_reports_only_unparsable_text_witness :
  float (ref_text (fst (handle (play []) (ref_text_change "twenty"))))
  = Raise ValueError.
Proof.
  apply (script_reports_only_unparsable_text [] (ref_text_change "twenty")
           ValueError).
  reflexivity.
Defined.

(** X15. A text that does not parse in the reference box does not block
    dragging: a move on which the test line sends "line-changed" is applied
    to the lines, the readout keeps its text, and [ValueError] is
    reported. *)
Theorem unparsable_text_keeps_the_move :
  forall (p : Program) (event : MouseEvent.t),
    test_line_changes p event = true ->
    float (ref_text p) = Raise ValueError ->
    handle p (motion_notify_event event) = (moved p event, Some ValueError)
    /\ measured_box (moved p event) = measured_box p.
Proof.
  intros p event Hc Hf. rewrite handle_motion, Hc.
  unfold update_test_readout.
  change (ref_text (moved p event)) with (ref_text p). rewrite Hf.
  split; reflexivity.
Qed.

Lemma unparsable_text_keeps_the_move_witness :
  let p := with_ref_text
             (with_test_line scenario
                (DraggableLine.with_handle_idx (test_line scenario)
                                               (Some I2)))
             "twenty" in
  let event := MouseEvent.mk (Some ax) 0 0 0 20 in
  handle_point (test_line (fst (handle p (motion_notify_event event)))) I2
  = (0, 20)
  /\ measured_box (fst (handle p (motion_notify_event event)))
     = "???"%string.
Proof.
  intros p event.
  destruct (unparsable_text_keeps_the_move p event eq_refl float_twenty)
    as [H _].
  rewrite H. split; reflexivity.
Defined.

Lemma on_move_grabbed_at_pointer self event i :
  DraggableLine._handle_idx self = Some i ->
  i <> I1 ->
  MouseEvent.inaxes event = Some (DraggableLine.ax self) ->
  handle_point (fst (DraggableLine._on_move self event)) i = pointer event.
Proof.
  intros Hidx Hi Hin. unfold DraggableLine._on_move.
  apply not_in_false in Hin. rewrite Hin, Hidx.
  destruct self as [a [[x0 x1 x2] [y0 y1 y2]] k g d].
  destruct i; [|congruence|]; reflexivity.
Qed.

Lemma handle_motion_lines p event :
  ref_line (fst (handle p (motion_notify_event event)))
  = fst (DraggableLine._on_move (ref_line p) event)
  /\ test_line (fst (handle p (motion_notify_event event)))
     = fst (DraggableLine._on_move (test_line p) event).
Proof.
  rewrite handle_motion.
  destruct (test_line_changes p event); [|split; reflexivity].
  destruct (update_frame None (moved p event)) as (Hr & Ht & _).
  rewrite Hr, Ht. split; reflexivity.
Qed.

(** X16. The two lines do not exclude each other: one press is handled by
    both, so when it grabs an endpoint on each, the next move over the axes
    drags both endpoints, and both are stored at the pointer's data
    position. *)
Theorem one_press_can_drag_both_lines :
  forall (p : Program) (canvas : Canvas) (press move : MouseEvent.t)
         (i j : index),
    DraggableLine._handle_idx
      (DraggableLine._on_press (ref_line p) canvas press) = Some i ->
    DraggableLine._handle_idx
      (DraggableLine._on_press (test_line p) canvas press) = Some j ->
    i <> I1 ->
    j <> I1 ->
    MouseEvent.inaxes move = Some (DraggableLine.ax (ref_line p)) ->
    MouseEvent.inaxes move = Some (DraggableLine.ax (test_line p)) ->
    let p1 := fst (handle p (button_press_event canvas press)) in
    let p2 := fst (handle p1 (motion_notify_event move)) in
    DraggableLine._handle_idx (ref_line p1) = Some i
    /\ DraggableLine._handle_idx (test_line p1) = Some j
    /\ handle_point (ref_line p2) i = pointer move
    /\ handle_point (test_line p2) j = pointer move.
Proof.
  intros p canvas press move i j Hi Hj Hi1 Hj1 Hr Ht. cbv zeta.
  destruct (handle_motion_lines
              (fst (handle p (button_press_event canvas press))) move)
    as [Er Et].
  rewrite Er, Et. cbn [handle fst ref_line test_line
                        with_ref_line with_test_line].
  split; [exact Hi|]. split; [exact Hj|].
  split; apply on_move_grabbed_at_pointer; try assumption.
  - rewrite (proj1 (on_press_frame (ref_line p) canvas press)). exact Hr.
  - rewrite (proj1 (on_press_frame (test_line p) canvas press)). exact Ht.
Qed.

Lemma one_press_can_drag_both_lines_witness :
  let p := with_test_line (with_ref_line scenario (short_line None))
                          (DraggableLine.__init__ ax
                             (python 0, python 0) (python 0, python 9) 10) in
  let press := MouseEvent.mk (Some ax) 0 0 0 0 in
  let move := MouseEvent.mk (Some ax) 0 0 2 3 in
  let p2 := fst (handle (fst (handle p (button_press_event
                                          (plain_canvas true) press)))
                        (motion_notify_event move)) in
  handle_point (ref_line p2) I0 = (2, 3)
  /\ handle_point (test_line p2) I0 = (2, 3).
Proof.
  intros p press move p2.
  assert (Hr : DraggableLine._handle_idx
                 (DraggableLine._on_press (ref_line p) (plain_canvas true)
                                          press) = Some I0).
  { rewrite (press_on (ref_line p) (plain_canvas true) press I0).
    - reflexivity.
    - split; reflexivity.
    - change (ref_line p) with (short_line None). unfold press.
      distances.
    - simpl. lra.
    - intros k Hk. simpl in Hk. lia. }
  assert (Ht : DraggableLine._handle_idx
                 (DraggableLine._on_press (test_line p) (plain_canvas true)
                                          press) = Some I0).
  { rewrite (press_on (test_line p) (plain_canvas true) press I0).
    - reflexivity.
    - split; reflexivity.
    - unfold pixel_distance. simpl.
      rewrite <- sqrt_0. f_equal. unfold Rsqr; ring.
    - simpl. lra.
    - intros k Hk. simpl in Hk. lia. }
  assert (Hi : I0 <> I1) by discriminate.
  destruct (one_press_can_drag_both_lines p (plain_canvas true) press move
              I0 I0 Hr Ht Hi Hi eq_refl eq_refl) as (_ & _ & H1 & H2).
  split; [exact H1 | exact H2].
Defined.
